(** * subdomain_recon.py: a shallow embedding and its verified properties

    The script enumerates the subdomains of a target domain with external
    tools, merges their line-oriented output, probes every candidate (DNS and
    HTTP) and writes four reports.

    Modelling conventions
    - A Python [str] is a [string] holding the UTF-8 bytes of the text.
      Prefix, suffix and substring tests and [split('.')] commute with the
      encoding; [strip] and [splitlines] recognise the encoded forms of the
      Unicode separators Python recognises.
    - A Python [set] of strings is a [gset string]; a [dict] keyed by strings
      is a [gmap string _].
    - The outside world (processes, resolver, HTTP, clock, the order in which
      futures complete, what the operating system refuses on the file
      system) is a record of oracles, [environment].
    - Effects are threaded through a state-and-exception monad [Py] over a
      [world] that holds the log, the calls made to the network functions,
      the directories and the files.
    - Creating the output directory and writing a report can raise; [main]
      does not catch these exceptions. *)

From Stdlib Require Import ZArith Ascii.
From stdpp Require Import gmap strings list sorting pretty.

Local Open Scope Z_scope.

(** ** Python strings *)

Module PyStr.

Definition byte (n : N) : ascii := ascii_of_N n.

Fixpoint bytes (l : list N) : string :=
  match l with
  | [] => ""
  | n :: l' => String (byte n) (bytes l')
  end.

Definition len (s : string) : nat := String.length s.

(** Truth value of a [str]: the empty string is false. *)
Definition truthy (s : string) : bool :=
  match s with
  | "" => false
  | String _ _ => true
  end.

(** [s.startswith(p)] *)
Fixpoint startswith (s p : string) : bool :=
  match p, s with
  | "", _ => true
  | String _ _, "" => false
  | String a p', String b s' =>
      if decide (a = b) then startswith s' p' else false
  end.

Fixpoint drop (n : nat) (s : string) : string :=
  match n, s with
  | O, _ => s
  | S _, "" => ""
  | S n', String _ s' => drop n' s'
  end.

(** [s.endswith(suffix)]: the suffix is not longer than [s] and the tail
    of [s] of that length is the suffix. *)
Definition endswith (s suffix : string) : bool :=
  if decide (len suffix ≤ len s)%nat
  then bool_decide (drop (len s - len suffix) s = suffix)
  else false.

(** [sub in s] *)
Fixpoint contains (s sub : string) : bool :=
  startswith s sub ||
  match s with
  | "" => false
  | String _ s' => contains s' sub
  end.

(** [s.split(sep)] for a separator of one character. *)
Fixpoint split (s : string) (sep : ascii) : list string :=
  match s with
  | "" => [""]
  | String c s' =>
      if decide (c = sep) then "" :: split s' sep
      else match split s' sep with
           | [] => [String c ""]
           | p :: ps => String c p :: ps
           end
  end.

(** [sep.join(parts)] *)
Definition join (sep : string) (parts : list string) : string :=
  String.concat sep parts.

(** [l[start:]] with Python's treatment of negative and out-of-range
    indices. *)
Definition slice_from {A} (start : Z) (l : list A) : list A :=
  let n := Z.of_nat (length l) in
  let i := if decide (start < 0) then Z.max 0 (start + n) else Z.min start n in
  list.drop (Z.to_nat i) l.

(** *** Whitespace and line boundaries (as UTF-8 byte sequences) *)

(** One-byte white space: U+0009..U+000D, U+001C..U+001F, U+0020. *)
Definition space1 (c : ascii) : bool :=
  let n := N_of_ascii c in
  bool_decide ((9 ≤ n ≤ 13)%N ∨ (28 ≤ n ≤ 32)%N).

(** Two-byte white space: U+0085 (C2 85) and U+00A0 (C2 A0). *)
Definition space2 (c1 c2 : ascii) : bool :=
  let a := N_of_ascii c1 in
  let b := N_of_ascii c2 in
  bool_decide (a = 194%N ∧ (b = 133%N ∨ b = 160%N)).

(** Three-byte white space: U+1680, U+2000..U+200A, U+2028, U+2029,
    U+202F, U+205F, U+3000. *)
Definition space3 (c1 c2 c3 : ascii) : bool :=
  let a := N_of_ascii c1 in
  let b := N_of_ascii c2 in
  let c := N_of_ascii c3 in
  bool_decide
    ((a = 225 ∧ b = 154 ∧ c = 128)%N ∨
     (a = 226 ∧ b = 128 ∧ ((128 ≤ c ≤ 138)%N ∨ c = 168 ∨ c = 169 ∨ c = 175))%N ∨
     (a = 226 ∧ b = 129 ∧ c = 159)%N ∨
     (a = 227 ∧ b = 128 ∧ c = 128)%N).

(** Removal of leading white space. With [rv] set the string is read
    back to front, so multi-byte sequences are matched reversed. *)
Fixpoint lstrip_gen (rv : bool) (s : string) : string :=
  match s with
  | "" => ""
  | String c1 r1 =>
      if space1 c1 then lstrip_gen rv r1
      else match r1 with
           | "" => s
           | String c2 r2 =>
               if (if rv then space2 c2 c1 else space2 c1 c2)
               then lstrip_gen rv r2
               else match r2 with
                    | "" => s
                    | String c3 r3 =>
                        if (if rv then space3 c3 c2 c1 else space3 c1 c2 c3)
                        then lstrip_gen rv r3
                        else s
                    end
           end
  end.

Definition lstrip (s : string) : string := lstrip_gen false s.
Definition rstrip (s : string) : string :=
  String.rev (lstrip_gen true (String.rev s)).

(** [s.strip()] *)
Definition strip (s : string) : string := rstrip (lstrip s).

(** One-byte line boundaries other than carriage return:
    LF, VT, FF, FS, GS, RS. *)
Definition linebreak1 (c : ascii) : bool :=
  let n := N_of_ascii c in
  bool_decide (n = 10 ∨ n = 11 ∨ n = 12 ∨ n = 28 ∨ n = 29 ∨ n = 30)%N.

Definition is_cr (c : ascii) : bool := bool_decide (N_of_ascii c = 13%N).
Definition is_lf (c : ascii) : bool := bool_decide (N_of_ascii c = 10%N).

(** U+0085 (C2 85). *)
Definition linebreak2 (c1 c2 : ascii) : bool :=
  bool_decide (N_of_ascii c1 = 194%N ∧ N_of_ascii c2 = 133%N).

(** U+2028 and U+2029 (E2 80 A8, E2 80 A9). *)
Definition linebreak3 (c1 c2 c3 : ascii) : bool :=
  bool_decide (N_of_ascii c1 = 226 ∧ N_of_ascii c2 = 128 ∧
               (N_of_ascii c3 = 168 ∨ N_of_ascii c3 = 169))%N.

(** Puts a character in front of the first line of an already split
    remainder. *)
Definition cons_char (c : ascii) (ls : list string) : list string :=
  match ls with
  | [] => [String c ""]
  | l :: ls' => String c l :: ls'
  end.

(** [s.splitlines()]: no line is produced after a final boundary, and
    CR LF counts as one boundary. *)
Fixpoint splitlines (s : string) : list string :=
  match s with
  | "" => []
  | String c1 r1 =>
      if linebreak1 c1 then "" :: splitlines r1
      else if is_cr c1 then
        match r1 with
        | String c2 r2 =>
            if is_lf c2 then "" :: splitlines r2 else "" :: splitlines r1
        | "" => [""]
        end
      else
        match r1 with
        | String c2 r2 =>
            if linebreak2 c1 c2 then "" :: splitlines r2
            else match r2 with
                 | String c3 r3 =>
                     if linebreak3 c1 c2 c3 then "" :: splitlines r3
                     else cons_char c1 (splitlines r1)
                 | "" => cons_char c1 (splitlines r1)
                 end
        | "" => [String c1 ""]
        end
  end.

End PyStr.

(** ** Level extraction (source lines 63-70) *)

(** The loop adds to [result] one name for every element that has enough
    labels; iteration order does not matter for a set. *)
Definition extract_subdomains_level (subdomains : gset string) (level : Z)
  : gset string :=
  set_omap
    (λ sub,
       let parts := PyStr.split sub "." in
       if decide (level + 2 ≤ Z.of_nat (length parts))
       then Some (PyStr.join "." (PyStr.slice_from (- (level + 2)) parts))
       else None)
    subdomains.


(** ** Exceptions, the world and the [Py] monad *)

(** A raised Python exception; [exc_str] is what [str(e)] gives. Every
    exception of the model is an instance of [Exception], so a handler
    [except Exception] catches it. *)
Record exception := Exception { exc_class : string; exc_str : string }.

Inductive outcome (A : Type) : Type :=
  | Ret (a : A)
  | Raise (e : exception).
Arguments Ret {A} a.
Arguments Raise {A} e.

Inductive log_level := DEBUG | INFO | WARNING.

Definition level_no (l : log_level) : Z :=
  match l with DEBUG => 10 | INFO => 20 | WARNING => 30 end.

Record log_record := LogRecord { lr_level : log_level; lr_msg : string }.

(** A call of the script to a network function. One call of
    [requests.get] is one event, whatever number of requests the library
    sends for it when it follows redirects. *)
Inductive net_event :=
  | DnsQuery (host : string)      (* socket.gethostbyname(host) *)
  | DnsQueryEx (host : string)    (* socket.gethostbyname_ex(host) *)
  | HttpGet (url : string).       (* requests.get(url, ...) *)

(** A probe record, the dict [{"ip": .., "cname": .., "http_status": ..}];
    [None] is Python's [None] (JSON [null]). *)
Record probe_record := ProbeRecord {
  ip : option string;
  cname : option string;
  http_status : option Z
}.

Record statistics := Statistics {
  total : nat;
  activos : nat;
  nivel2 : nat;
  nivel3 : nat
}.

Record run_metadata := RunMetadata {
  timestamp : string;
  dominio : string;
  herramientas : list string;
  estadisticas : statistics
}.

(** What [json.dump] is given: [{"metadata": .., "subdominios": ..}]. The
    document is kept as data, as [json.load] reads it back; its textual
    layout, and with it the order in which the keys of an object are
    written, is not modelled. *)
Record json_report := JsonReport {
  jr_metadata : run_metadata;
  jr_subdominios : gmap string probe_record
}.

(** What a regular file holds. [PartialFile] is a file that was opened for
    writing and whose writing raised: it holds what had been written when
    the error came. *)
Inductive file_content :=
  | JsonFile (doc : json_report)
  | TextFile (text : string)
  | PartialFile.

(** The mutable state outside the program's own variables. Paths are the
    strings the script uses. *)
Record world := World {
  w_level : log_level;                 (* threshold of the root logger *)
  w_log : list log_record;             (* records emitted, oldest first *)
  w_net : list net_event;              (* calls to the network, oldest first *)
  w_dirs : gset string;                (* directories known to exist *)
  w_files : gmap string file_content   (* regular files by path *)
}.

(** The root logger after [logging.basicConfig(level=logging.INFO)]. *)
Definition initial_world (dirs : gset string)
    (files : gmap string file_content) : world :=
  World INFO [] [] dirs files.

Definition Py (A : Type) : Type := world → outcome A * world.

Global Instance Py_ret : MRet Py := λ A a w, (Ret a, w).
Global Instance Py_bind : MBind Py := λ A B f m w,
  match m w with
  | (Ret a, w') => f a w'
  | (Raise e, w') => (Raise e, w')
  end.

(** [try: body except Exception as e: handler(e)] *)
Definition try_except {A} (body : Py A) (handler : exception → Py A) : Py A :=
  λ w, match body w with
       | (Ret a, w') => (Ret a, w')
       | (Raise e, w') => handler e w'
       end.

(** [for x in l: s = body(x, s)] *)
Fixpoint for_each {A S} (l : list A) (body : A → S → Py S) (s : S) : Py S :=
  match l with
  | [] => mret s
  | x :: l' => s' ← body x s; for_each l' body s'
  end.

(** A record reaches the log when its level is not below the threshold. *)
Definition emit (lvl : log_level) (msg : string) : Py () := λ w,
  (Ret (),
   World (w_level w)
         (w_log w ++ if decide (level_no (w_level w) ≤ level_no lvl)
                     then [LogRecord lvl msg] else [])
         (w_net w) (w_dirs w) (w_files w)).

Definition logging_info : string → Py () := emit INFO.
Definition logging_warning : string → Py () := emit WARNING.

(** [logging.getLogger().setLevel(lvl)] *)
Definition set_level (lvl : log_level) : Py () := λ w,
  (Ret (), World lvl (w_log w) (w_net w) (w_dirs w) (w_files w)).

Definition record_net (ev : net_event) : Py () := λ w,
  (Ret (), World (w_level w) (w_log w) (w_net w ++ [ev]) (w_dirs w) (w_files w)).

(** ** Paths *)

Definition is_sep (c : ascii) : bool := bool_decide (c = "/"%char).

(** [(p[:i], p[i:])] for [i = p.rfind('/') + 1]: the first part is empty
    exactly when [p] has no separator. *)
Fixpoint cut_last_sep (p : string) : string * string :=
  match p with
  | "" => ("", "")
  | String c r =>
      let '(h, t) := cut_last_sep r in
      if PyStr.truthy h then (String c h, t)
      else if is_sep c then (String c "", r)
      else ("", String c r)
  end.

(** [s.rstrip('/')] *)
Fixpoint rstrip_sep (s : string) : string :=
  match s with
  | "" => ""
  | String c r =>
      let r' := rstrip_sep r in
      if is_sep c && negb (PyStr.truthy r') then "" else String c r'
  end.

(** [posixpath.split(p)]: the head loses its trailing separators unless it
    consists of separators only. *)
Definition path_split (p : string) : string * string :=
  let '(head, tail) := cut_last_sep p in
  (if PyStr.truthy (rstrip_sep head) then rstrip_sep head else head, tail).

(** The heads on which [os.makedirs(name)] calls itself, outermost
    directory first: the head of [name] (of its head, when [name] ends with
    a separator), then the heads of that head, as long as head and tail are
    both non-empty. *)
Fixpoint makedirs_heads (fuel : nat) (name : string) : list string :=
  match fuel with
  | O => []
  | S fuel' =>
      let '(head, tail) := path_split name in
      let '(head, tail) :=
        if PyStr.truthy tail then (head, tail) else path_split head in
      if PyStr.truthy head && PyStr.truthy tail
      then makedirs_heads fuel' head ++ [head]
      else []
  end.

(** The ancestors of a path; a head is shorter than its name, so the
    length of the path is fuel enough. *)
Definition parents (path : string) : list string :=
  makedirs_heads (String.length path) path.

(** The directories known to exist after [os.makedirs(path, exist_ok=True)]
    returned: the path and its ancestors, created or found, next to those
    known before. *)
Definition makedirs_dirs (path : string) (dirs : gset string) : gset string :=
  list_to_set (path :: parents path) ∪ dirs.

(** What the files of the world forbid to [os.makedirs]: an empty path,
    and a path that is a regular file or lies below one. *)
Definition makedirs_blocked (files : gmap string file_content) (path : string)
  : Prop :=
  path = "" ∨ is_Some (files !! path) ∨
  Exists (λ d, is_Some (files !! d)) (parents path).

Global Instance makedirs_blocked_dec (files : gmap string file_content)
    (path : string) : Decision (makedirs_blocked files path).
Proof. unfold makedirs_blocked. apply _. Defined.

(** ** The environment *)

Record completed_process := CompletedProcess {
  returncode : Z;
  stdout : string;
  stderr : string
}.

(** The collaborators, as oracles. An oracle answers [Raise e] when the
    call raises. [as_completed] is the order in which the futures of the
    probing phase complete: every submitted future completes exactly once,
    in any order. The last four are the operating system's part in the
    file system: [os_error path] is the [OSError] raised for a path that
    the world itself forbids (its class and message are the operating
    system's), and the three others say whether the operating system
    refuses, on grounds the world does not hold (permissions, a read-only
    or full disk, a path that reaches a file under another spelling), to
    create the directory, to open the file for writing, or to write it
    to the end. *)
Record environment := Environment {
  subprocess_run : string → Z → outcome completed_process;
  gethostbyname : string → outcome string;
  gethostbyname_ex : string → outcome (string * list string * list string);
  requests_get : string → Z → outcome Z;
  strftime_now : string;
  as_completed : list string → list string;
  as_completed_once : ∀ l, as_completed l ≡ₚ l;
  os_error : string → exception;
  makedirs_refused : string → option exception;
  open_refused : string → option exception;
  write_refused : string → option exception
}.

(** [os.makedirs(path, exist_ok=True)]: raises for the empty path, for a
    path that is a regular file or lies below one, and when the operating
    system refuses; otherwise the path and its ancestors are directories
    afterwards. An existing directory is no error. *)
Definition os_makedirs (env : environment) (path : string) : Py () := λ w,
  if decide (makedirs_blocked (w_files w) path) then (Raise (os_error env path), w)
  else match makedirs_refused env path with
       | Some e => (Raise e, w)
       | None =>
           (Ret (), World (w_level w) (w_log w) (w_net w)
                          (makedirs_dirs path (w_dirs w)) (w_files w))
       end.

(** [with open(path, "w") as f: ...] writing [content]: opening raises
    for a directory and when the operating system refuses, and then nothing
    changes; when the writing raises, the file is left partial; otherwise
    the file holds [content]. *)
Definition write_file (env : environment) (path : string) (content : file_content)
  : Py () := λ w,
  if decide (path ∈ w_dirs w) then (Raise (os_error env path), w)
  else match open_refused env path with
       | Some e => (Raise e, w)
       | None =>
           match write_refused env path with
           | Some e =>
               (Raise e, World (w_level w) (w_log w) (w_net w) (w_dirs w)
                               (<[path := PartialFile]> (w_files w)))
           | None =>
               (Ret (), World (w_level w) (w_log w) (w_net w) (w_dirs w)
                              (<[path := content]> (w_files w)))
           end
       end.

Definition perform {A} (o : outcome A) : Py A := λ w, (o, w).

Definition socket_gethostbyname (env : environment) (host : string) : Py string :=
  _ ← record_net (DnsQuery host); perform (gethostbyname env host).

Definition socket_gethostbyname_ex (env : environment) (host : string)
  : Py (string * list string * list string) :=
  _ ← record_net (DnsQueryEx host); perform (gethostbyname_ex env host).

(** [requests.get(url, timeout=t, allow_redirects=True).status_code] *)
Definition requests_get_status (env : environment) (url : string) (t : Z) : Py Z :=
  _ ← record_net (HttpGet url); perform (requests_get env url t).

(** ** The functions of the script *)

(** Lines 33-40. *)
Definition check_tool (env : environment) (cmd name : string) : Py bool :=
  try_except
    (_ ← perform (subprocess_run env cmd 10); mret true)
    (λ e,
       _ ← logging_warning
             ("Herramienta no disponible: " +:+ name +:+ " (" +:+ exc_str e +:+ ")");
       mret false).

(** Lines 42-51. *)
Definition run_command (env : environment) (cmd name : string) (timeout : Z)
  : Py string :=
  try_except
    (result ← perform (subprocess_run env cmd timeout);
     _ ← (if decide (returncode result ≠ 0)
          then logging_warning
                 (name +:+ " retorno codigo " +:+ pretty (returncode result)
                       +:+ ": " +:+ PyStr.strip (stderr result))
          else mret ());
     mret (stdout result))
    (λ e,
       _ ← logging_warning ("Error ejecutando " +:+ name +:+ ": " +:+ exc_str e);
       mret "").

(** Lines 60-61. *)
Definition get_timestamp (env : environment) : Py string :=
  mret (strftime_now env).

(** Lines 72-82. *)
Definition dns_resolve (env : environment) (subdomain : string)
  : Py (option string * option string) :=
  try_except
    (ip ← socket_gethostbyname env subdomain;
     cname ← try_except
               (r ← socket_gethostbyname_ex env subdomain; mret (Some r.1.1))
               (λ _, mret None);
     mret (Some ip, cname))
    (λ _, mret (None, None)).

(** Lines 84-90. *)
Definition http_check (env : environment) (subdomain : string) : Py (option Z) :=
  try_except
    (r ← requests_get_status env ("http://" +:+ subdomain) 5; mret (Some r))
    (λ _, mret None).

(** Truth value of an optional string ([None] and [""] are false) and of
    an optional integer ([None] and [0] are false). *)
Definition truthy_str (o : option string) : bool :=
  match o with
  | Some s => PyStr.truthy s
  | None => false
  end.

Definition truthy_int (o : option Z) : bool :=
  match o with
  | Some z => bool_decide (z ≠ 0)
  | None => false
  end.

(** [status and status < 600]: the comparison is reached only for a
    status that is true. *)
Definition responded (status : option Z) : bool :=
  truthy_int status &&
  match status with
  | Some z => bool_decide (z < 600)
  | None => false
  end.

(** [os.path.join(a, b)] (POSIX). *)
Definition os_path_join (a b : string) : string :=
  if PyStr.startswith b "/" then b
  else if negb (PyStr.truthy a) || PyStr.endswith a "/" then a +:+ b
  else a +:+ "/" +:+ b.

(** [sorted] on strings: ascending in the lexicographic order of the
    characters. *)
Definition sorted (l : list string) : list string := merge_sort String.le l.

(** [for s in names: f.write(s + "\n")] *)
Fixpoint write_lines (names : list string) : string :=
  match names with
  | [] => ""
  | s :: names' => (s +:+ PyStr.bytes [10%N]) +:+ write_lines names'
  end.

(** The parsed command line (lines 53-58). *)
Record arguments := Namespace {
  arg_domain : string;
  arg_output : string;
  arg_verbose : bool
}.

(** [choices] of [--domain]: what [parse_args] accepts. *)
Definition accepted_domain (d : string) : Prop :=
  d = "testfire.net" ∨ d = "vulnweb.com".

(** The tool table of lines 100-106, in insertion order:
    name, command, words of the self-test command. *)
Definition tools (domain : string) : list (string * (string * list string)) :=
  [ ("subscraper",
     ("python3 subscraper/subscraper/subscraper.py -d " +:+ domain +:+ " -silent -active",
      ["python3"; "subscraper.py"]));
    ("subfinder",
     ("subfinder -d " +:+ domain +:+ " -all -silent", ["subfinder"]));
    ("assetfinder",
     ("assetfinder --subs-only " +:+ domain, ["assetfinder"]));
    ("sublist3r",
     ("sublist3r -d " +:+ domain, ["python"; "sublist3r"])) ].

(** Line 113: the stripped non-blank lines that contain the domain. *)
Definition found_in (domain out : string) : gset string :=
  list_to_set
    (PyStr.strip <$>
       filter (λ line, PyStr.truthy (PyStr.strip line) ∧ PyStr.contains line domain)
              (PyStr.splitlines out)).

(** Body of the loop of lines 109-118 on the pair
    [(available_tools, all_subdomains)]. *)
Definition run_tool (env : environment) (domain : string)
    (tool : string * (string * list string))
    (st : list string * gset string) : Py (list string * gset string) :=
  let '(name, (cmd, check)) := tool in
  let '(available_tools, all_subdomains) := st in
  ok ← check_tool env (PyStr.join " " check +:+ " --help") name;
  if ok : bool then
    _ ← logging_info ("Ejecutando " +:+ name +:+ "...");
    out ← run_command env cmd name 300;
    let found := found_in domain out in
    _ ← logging_info (name +:+ ": " +:+ pretty (size found)
                           +:+ " subdominios encontrados tras la ejecucion.");
    mret (available_tools ++ [name], all_subdomains ∪ found)
  else
    _ ← logging_warning (name +:+ " no est√° disponible. Saltando...");
    mret (available_tools, all_subdomains).

(** Lines 107-118. *)
Definition run_tools (env : environment) (domain : string)
  : Py (list string * gset string) :=
  for_each (tools domain) (run_tool env domain) ([], ∅).

(** Line 121. *)
Definition clean (domain : string) (all_subdomains : gset string) : gset string :=
  filter (λ s, PyStr.endswith s domain) all_subdomains.

(** Body of the loop of lines 138-147 on the pair
    [(subdomain_data, active_subdomains)]; [future.result()] is the result
    of [dns_resolve] for the candidate. The workers run [dns_resolve]
    concurrently; the model records the requests of a future when the loop
    takes its result, and does not model how the workers interleave. *)
Definition probe (env : environment) (sub : string)
    (st : gmap string probe_record * gmap string probe_record)
  : Py (gmap string probe_record * gmap string probe_record) :=
  let '(subdomain_data, active_subdomains) := st in
  '(ip, cname) ← dns_resolve env sub;
  if truthy_str ip then
    status ← http_check env sub;
    let subdomain_data' := <[sub := ProbeRecord ip cname status]> subdomain_data in
    if responded status
    then mret (subdomain_data',
               match subdomain_data' !! sub with
               | Some r => <[sub := r]> active_subdomains
               | None => active_subdomains
               end)
    else mret (subdomain_data', active_subdomains)
  else
    mret (<[sub := ProbeRecord None None None]> subdomain_data, active_subdomains).

(** Lines 124-147: one future per candidate, handled in completion order. *)
Definition probe_all (env : environment) (all_subdomains : gset string)
  : Py (gmap string probe_record * gmap string probe_record) :=
  for_each (as_completed env (elements all_subdomains)) (probe env) (∅, ∅).

(** The variables of [main] when it returns; [aggregated] is the value
    [all_subdomains] had before line 121 rebinds it. *)
Record main_locals := MainLocals {
  domain : string;
  available_tools : list string;
  aggregated : gset string;
  all_subdomains : gset string;
  subdomain_data : gmap string probe_record;
  active_subdomains : gmap string probe_record;
  lvl2 : gset string;
  lvl3 : gset string;
  stats : statistics;
  metadata : run_metadata;
  base : string;
  base_act : string
}.

(** Lines 92-182. *)
Definition main (env : environment) (args : arguments) : Py main_locals :=
  _ ← (if arg_verbose args then set_level DEBUG else mret ());
  let domain := arg_domain args in
  let output_dir := arg_output args in
  _ ← os_makedirs env output_dir;
  timestamp ← get_timestamp env;
  '(available_tools, aggregated) ← run_tools env domain;
  _ ← logging_info ("Total subdominios encontrados (sin filtrar): "
                      +:+ pretty (size aggregated));
  let all_subdomains := clean domain aggregated in
  _ ← logging_info ("Total subdominios unicos: " +:+ pretty (size all_subdomains));
  '(subdomain_data, active_subdomains) ← probe_all env all_subdomains;
  let lvl2 := extract_subdomains_level all_subdomains 2 in
  let lvl3 := extract_subdomains_level all_subdomains 3 in
  let stats := Statistics (size all_subdomains) (size active_subdomains)
                          (size lvl2) (size lvl3) in
  let metadata := RunMetadata timestamp domain available_tools stats in
  let base := os_path_join output_dir
                ("subdominios_completos_" +:+ domain +:+ "_" +:+ timestamp) in
  let base_act := os_path_join output_dir
                    ("subdominios_activos_" +:+ domain +:+ "_" +:+ timestamp) in
  _ ← write_file env (base +:+ ".json")
        (JsonFile (JsonReport metadata subdomain_data));
  _ ← write_file env (base_act +:+ ".json")
        (JsonFile (JsonReport metadata active_subdomains));
  _ ← write_file env (base +:+ ".txt")
        (TextFile (write_lines (sorted (elements all_subdomains))));
  _ ← write_file env (base_act +:+ ".txt")
        (TextFile (write_lines (sorted (elements (dom active_subdomains)))));
  _ ← logging_info ("Reportes generados en: " +:+ output_dir);
  _ ← logging_info ("Subdominios totales: " +:+ pretty (size all_subdomains)
                      +:+ " | Activos: " +:+ pretty (size active_subdomains)
                      +:+ " | Nivel2: " +:+ pretty (size lvl2)
                      +:+ " | Nivel3: " +:+ pretty (size lvl3));
  mret (MainLocals domain available_tools aggregated all_subdomains
                   subdomain_data active_subdomains lvl2 lvl3 stats metadata
                   base base_act).


(** ** What the specification says, in its own words *)

(** A string ends with [d] when it is some prefix followed by [d]. *)
Definition ends_with (s d : string) : Prop := ∃ p, s = p +:+ d.

(** The last [n] elements of a list. *)
Definition last_labels (n : nat) (labels : list string) : list string :=
  reverse (take n (reverse labels)).

(** The dot-separated labels of a name. *)
Definition labels (name : string) : list string := PyStr.split name ".".

(** ** Functions and predicates used to state the properties *)

(** The world with more network requests made. *)
Definition add_net (evs : list net_event) (w : world) : world :=
  World (w_level w) (w_log w) (w_net w ++ evs) (w_dirs w) (w_files w).

(** What [dns_resolve] returns for a candidate. *)
Definition dns_answer (env : environment) (sub : string)
  : option string * option string :=
  match gethostbyname env sub with
  | Raise _ => (None, None)
  | Ret a =>
      (Some a,
       match gethostbyname_ex env sub with
       | Ret r => Some r.1.1
       | Raise _ => None
       end)
  end.

(** The requests [dns_resolve] makes for a candidate. *)
Definition dns_events (env : environment) (sub : string) : list net_event :=
  DnsQuery sub ::
  match gethostbyname env sub with
  | Raise _ => []
  | Ret _ => [DnsQueryEx sub]
  end.

(** What [http_check] returns for a candidate. *)
Definition http_answer (env : environment) (sub : string) : option Z :=
  match requests_get env ("http://" +:+ sub) 5 with
  | Ret z => Some z
  | Raise _ => None
  end.

(** The record line 143 or 147 stores for a candidate. *)
Definition record_of (env : environment) (sub : string) : probe_record :=
  let '(ip, cname) := dns_answer env sub in
  if truthy_str ip then ProbeRecord ip cname (http_answer env sub)
  else ProbeRecord None None None.

(** Whether line 144 puts the candidate in the active map. *)
Definition promoted (env : environment) (sub : string) : bool :=
  truthy_str (dns_answer env sub).1 && responded (http_answer env sub).

(** The requests one turn of the loop makes for a candidate. *)
Definition probe_events (env : environment) (sub : string) : list net_event :=
  dns_events env sub ++
  if truthy_str (dns_answer env sub).1 then [HttpGet ("http://" +:+ sub)] else [].

(** One turn of the loop of lines 138-147, on the two maps. *)
Definition probe_step (env : environment)
    (st : gmap string probe_record * gmap string probe_record) (sub : string)
  : gmap string probe_record * gmap string probe_record :=
  (<[sub := record_of env sub]> st.1,
   if promoted env sub then <[sub := record_of env sub]> st.2 else st.2).

(** A computation that returns [a] and leaves everything but the log as
    it was. *)
Definition only_logs {A} (m : Py A) (a : A) : Prop :=
  ∀ w, ∃ w',
    m w = (Ret a, w') ∧
    w_level w' = w_level w ∧ w_net w' = w_net w ∧
    w_dirs w' = w_dirs w ∧ w_files w' = w_files w.

(** What [check_tool] returns for a self-test command. *)
Definition tool_available (env : environment) (cmd : string) : bool :=
  match subprocess_run env cmd 10 with
  | Ret _ => true
  | Raise _ => false
  end.

(** What [run_command] returns for a command and a timeout. *)
Definition command_output (env : environment) (cmd : string) (timeout : Z) : string :=
  match subprocess_run env cmd timeout with
  | Ret result => stdout result
  | Raise _ => ""
  end.

(** The names a tool contributes to [all_subdomains] at line 115: nothing
    when its self-test raises, otherwise the matching lines of its output. *)
Definition tool_found (env : environment) (domain : string)
    (tool : string * (string * list string)) : gset string :=
  if tool_available env (PyStr.join " " tool.2.2 +:+ " --help")
  then found_in domain (command_output env tool.2.1 300)
  else ∅.

(** One turn of the loop of lines 109-118, on the pair
    [(available_tools, all_subdomains)]. *)
Definition tool_step (env : environment) (domain : string)
    (st : list string * gset string) (tool : string * (string * list string))
  : list string * gset string :=
  if tool_available env (PyStr.join " " tool.2.2 +:+ " --help")
  then (st.1 ++ [tool.1], st.2 ∪ tool_found env domain tool)
  else st.

(** The directory part that [os.path.join] puts in front of a relative
    name. *)
Definition dir_prefix (a : string) : string :=
  if negb (PyStr.truthy a) || PyStr.endswith a "/" then a else a +:+ "/".

(** Hosts of the [gethostbyname] requests among some events: one such
    request is made by each submitted task. *)
Definition dns_queries (evs : list net_event) : list string :=
  omap (λ ev, match ev with DnsQuery h => Some h | _ => None end) evs.

(** The records of the full map and of the active map after probing the
    candidates in completion order. *)
Definition probed (env : environment) (S : gset string)
  : gmap string probe_record * gmap string probe_record :=
  foldl (probe_step env) (∅, ∅) (as_completed env (elements S)).

(** The requests of the whole probing phase. *)
Definition probed_events (env : environment) (S : gset string) : list net_event :=
  as_completed env (elements S) ≫= probe_events env.

(** The four artifacts, in the order they are written. *)
Definition report_files (L : main_locals) : list (string * file_content) :=
  [ (base L +:+ ".json",
     JsonFile (JsonReport (metadata L) (subdomain_data L)));
    (base_act L +:+ ".json",
     JsonFile (JsonReport (metadata L) (active_subdomains L)));
    (base L +:+ ".txt",
     TextFile (write_lines (sorted (elements (all_subdomains L)))));
    (base_act L +:+ ".txt",
     TextFile (write_lines (sorted (elements (dom (active_subdomains L)))))) ].

(** How the variables of [main] and the final world relate to each other
    and to the initial world. *)
Record main_post (env : environment) (args : arguments) (w : world)
    (L : main_locals) (w' : world) : Prop := MainPost {
  post_domain : domain L = arg_domain args;
  post_tools :
    (available_tools L, aggregated L)
    = foldl (tool_step env (arg_domain args)) ([], ∅) (tools (arg_domain args));
  post_clean : all_subdomains L = clean (arg_domain args) (aggregated L);
  post_probe :
    (subdomain_data L, active_subdomains L) = probed env (all_subdomains L);
  post_net : w_net w' = w_net w ++ probed_events env (all_subdomains L);
  post_lvl2 : lvl2 L = extract_subdomains_level (all_subdomains L) 2;
  post_lvl3 : lvl3 L = extract_subdomains_level (all_subdomains L) 3;
  post_stats :
    stats L = Statistics (size (all_subdomains L)) (size (active_subdomains L))
                         (size (lvl2 L)) (size (lvl3 L));
  post_metadata :
    metadata L = RunMetadata (strftime_now env) (domain L) (available_tools L) (stats L);
  post_base :
    base L = os_path_join (arg_output args)
               ("subdominios_completos_" +:+ arg_domain args +:+ "_" +:+ strftime_now env);
  post_base_act :
    base_act L = os_path_join (arg_output args)
                   ("subdominios_activos_" +:+ arg_domain args +:+ "_" +:+ strftime_now env);
  post_files :
    w_files w' = foldl (λ fs pc, <[pc.1 := pc.2]> fs) (w_files w) (report_files L);
  post_dirs : w_dirs w' = makedirs_dirs (arg_output args) (w_dirs w)
}.

(** A computation that ends from [w] with an outcome and a world that
    satisfy [Q]. *)
Definition runs {A} (m : Py A) (w : world)
    (Q : outcome A → world → Prop) : Prop :=
  ∃ r w', m w = (r, w') ∧ Q r w'.

(** [os.makedirs] succeeds for the path. *)
Definition makedirs_ok (env : environment) (path : string)
    (files : gmap string file_content) : Prop :=
  ¬ makedirs_blocked files path ∧ makedirs_refused env path = None.

(** Opening the path for writing and writing it succeed. *)
Definition write_ok (env : environment) (path : string) (dirs : gset string)
  : Prop :=
  (path ∉ dirs) ∧ open_refused env path = None ∧ write_refused env path = None.

(** The paths of the four reports without their extensions, and with
    them, in the order in which [main] writes them. *)
Definition report_base (env : environment) (args : arguments) : string :=
  os_path_join (arg_output args)
    ("subdominios_completos_" +:+ arg_domain args +:+ "_" +:+ strftime_now env).

Definition report_base_act (env : environment) (args : arguments) : string :=
  os_path_join (arg_output args)
    ("subdominios_activos_" +:+ arg_domain args +:+ "_" +:+ strftime_now env).

Definition report_paths (env : environment) (args : arguments) : list string :=
  [ report_base env args +:+ ".json"; report_base_act env args +:+ ".json";
    report_base env args +:+ ".txt"; report_base_act env args +:+ ".txt" ].

(** The file system lets the run through: the output directory can be
    made, and then each of the four reports can be opened and written. *)
Definition fs_ok (env : environment) (args : arguments) (w : world) : Prop :=
  makedirs_ok env (arg_output args) (w_files w) ∧
  Forall (λ p, write_ok env p (makedirs_dirs (arg_output args) (w_dirs w)))
         (report_paths env args).

Global Instance fs_ok_dec (env : environment) (args : arguments) (w : world) :
  Decision (fs_ok env args w).
Proof. unfold fs_ok, makedirs_ok, write_ok. apply _. Defined.

(** How [main] ends: it returns exactly when the file system lets the run
    through, with variables and a world that satisfy [main_post]. *)
Definition main_ends (env : environment) (args : arguments) (w : world)
    (r : outcome main_locals) (w' : world) : Prop :=
  match r with
  | Ret L => fs_ok env args w ∧ main_post env args w L w'
  | Raise _ => ¬ fs_ok env args w
  end.

(** *** Example environments *)

(** The line feed. *)
Definition LF : string := PyStr.bytes [10%N].

(** Only subfinder is installed; it prints three lines. One host resolves
    and answers HTTP with the given status. Futures complete in reverse
    order of submission. *)
Definition env_subfinder (status : Z) : environment :=
  Environment
    (λ cmd _,
       if PyStr.startswith cmd "subfinder"
       then Ret (CompletedProcess 0
                   ("eviltestfire.net" +:+ LF +:+ " www.testfire.net " +:+ LF
                      +:+ "http://testfire.net/login")
                   "")
       else Raise (Exception "TimeoutExpired" "timed out after 10 seconds"))
    (λ host,
       if decide (host = "www.testfire.net") then Ret "65.61.137.117"
       else Raise (Exception "gaierror" "Name or service not known"))
    (λ host, Raise (Exception "herror" "Unknown host"))
    (λ _ _, Ret status)
    "20240101_120000"
    reverse
    reverse_Permutation
    (λ _, Exception "OSError" "refused")
    (λ _, None) (λ _, None) (λ _, None).

(** No tool is installed. *)
Definition env_no_tools : environment :=
  Environment
    (λ _ _, Raise (Exception "OSError" "cannot run"))
    (λ _, Raise (Exception "gaierror" "Name or service not known"))
    (λ _, Raise (Exception "herror" "Unknown host"))
    (λ _ _, Raise (Exception "ConnectionError" "unreachable"))
    "20240101_120000"
    (λ l, l)
    (λ l, reflexivity l)
    (λ _, Exception "OSError" "refused")
    (λ _, None) (λ _, None) (λ _, None).

(** A test on the variables of a finished run. *)
Definition on_locals (P : main_locals → bool)
    (r : outcome main_locals * world) : bool :=
  match r.1 with
  | Ret L => P L
  | Raise _ => false
  end.

(** The text of a text file of the world. *)
Definition text_at (w : world) (path : string) : option string :=
  match w_files w !! path with
  | Some (TextFile text) => Some text
  | _ => None
  end.

(** [-d testfire.net], default output directory. *)
Definition args_testfire : arguments := Namespace "testfire.net" "output" false.

(** Nothing logged, requested or written yet. *)
Definition world0 : world := initial_world ∅ ∅.

(** *** Used by the further properties *)

(** Whether the test [if ip] of line 141 holds for a candidate: the
    resolver returned, and what it returned is not the empty string. *)
Definition resolves (env : environment) (sub : string) : bool :=
  match gethostbyname env sub with
  | Ret a => PyStr.truthy a
  | Raise _ => false
  end.

(** The URLs of the [requests.get] calls among some events. *)
Definition http_gets (evs : list net_event) : list string :=
  omap (λ ev, match ev with HttpGet url => Some url | _ => None end) evs.

(** The same collaborators, with futures completing in the order they
    were submitted. *)
Definition in_submission_order (env : environment) : environment :=
  Environment (subprocess_run env) (gethostbyname env) (gethostbyname_ex env)
              (requests_get env) (strftime_now env)
              (λ l, l) (λ l, reflexivity l)
              (os_error env) (makedirs_refused env) (open_refused env)
              (write_refused env).

(** Every self-test completes, with exit code 127 as a shell gives for a
    command it does not find; every real command times out. *)
Definition env_timeouts : environment :=
  Environment
    (λ cmd t,
       if decide (t = 10)
       then Ret (CompletedProcess 127 "" "command not found")
       else Raise (Exception "TimeoutExpired" "timed out after 300 seconds"))
    (λ _, Raise (Exception "gaierror" "Name or service not known"))
    (λ _, Raise (Exception "herror" "Unknown host"))
    (λ _ _, Raise (Exception "ConnectionError" "unreachable"))
    "20240101_120000"
    (λ l, l)
    (λ l, reflexivity l)
    (λ _, Exception "OSError" "refused")
    (λ _, None) (λ _, None) (λ _, None).

(** Two worlds with the same log, requests, directories and files, whose
    logger thresholds both let INFO records through. *)
Definition same_but_level (w1 w2 : world) : Prop :=
  w_log w1 = w_log w2 ∧ w_net w1 = w_net w2 ∧
  w_dirs w1 = w_dirs w2 ∧ w_files w1 = w_files w2 ∧
  level_no (w_level w1) ≤ 20 ∧ level_no (w_level w2) ≤ 20.

(** A computation that does the same from two such worlds. *)
Definition level_blind {A} (m : Py A) : Prop :=
  ∀ w1 w2, same_but_level w1 w2 →
           (m w1).1 = (m w2).1 ∧ same_but_level (m w1).2 (m w2).2.

(** Whether a line boundary of more than one byte starts with [c1],
    followed by [r1]. *)
Definition lookahead (c1 : ascii) (r1 : string) : bool :=
  match r1 with
  | String c2 r2 =>
      PyStr.linebreak2 c1 c2 ||
      match r2 with
      | String c3 _ => PyStr.linebreak3 c1 c2 c3
      | "" => false
      end
  | "" => false
  end.

(** Whether a line boundary of [splitlines] starts somewhere in the
    string. *)
Fixpoint has_break (s : string) : bool :=
  match s with
  | "" => false
  | String c1 r1 =>
      PyStr.linebreak1 c1 || PyStr.is_cr c1 || lookahead c1 r1 || has_break r1
  end.

(** * Properties *)

(** ** The string functions on concrete inputs *)

Example split_labels :
  PyStr.split "a.b.c.example.com" "." = ["a"; "b"; "c"; "example"; "com"].
Proof. reflexivity. Qed.

Example split_empty_and_trailing :
  PyStr.split "" "." = [""] ∧ PyStr.split "a." "." = ["a"; ""] ∧
  PyStr.split "a..b" "." = ["a"; ""; "b"].
Proof. repeat split. Qed.

Example splitlines_boundaries :
  PyStr.splitlines ("a" +:+ PyStr.bytes [10; 10]%N +:+ "b c "
                        +:+ PyStr.bytes [13; 10]%N +:+ "d" +:+ PyStr.bytes [13]%N)
  = ["a"; ""; "b c "; "d"] ∧
  PyStr.splitlines "" = [] ∧
  PyStr.splitlines ("x" +:+ PyStr.bytes [226; 128; 168]%N +:+ "y") = ["x"; "y"].
Proof. repeat split. Qed.

Example strip_both_sides :
  PyStr.strip (" " +:+ PyStr.bytes [194; 160; 9]%N +:+ "b c"
                   +:+ PyStr.bytes [13; 10; 227; 128; 128]%N) = "b c" ∧
  PyStr.strip "  " = "".
Proof. repeat split. Qed.

Example slice_from_negative :
  PyStr.slice_from (-4) ["a"; "b"; "c"; "example"; "com"]
  = ["b"; "c"; "example"; "com"] ∧
  PyStr.slice_from (-4) ["example"; "com"] = ["example"; "com"] ∧
  PyStr.slice_from (-0) ["example"; "com"] = ["example"; "com"].
Proof. repeat split. Qed.

Example endswith_and_contains :
  PyStr.endswith "www.testfire.net" "testfire.net" = true ∧
  PyStr.endswith "http://testfire.net/login" "testfire.net" = false ∧
  PyStr.contains "http://testfire.net/login" "testfire.net" = true ∧
  PyStr.endswith "net" "testfire.net" = false.
Proof. repeat split. Qed.

Example os_path_join_cases :
  os_path_join "output" "a.txt" = "output/a.txt" ∧
  os_path_join "output/" "a.txt" = "output/a.txt" ∧
  os_path_join "" "a.txt" = "a.txt" ∧
  os_path_join "output" "/tmp/a.txt" = "/tmp/a.txt".
Proof. repeat split. Qed.

Example path_split_cases :
  path_split "/srv/out" = ("/srv", "out") ∧ path_split "out" = ("", "out") ∧
  path_split "a//b/" = ("a//b", "") ∧ path_split "/" = ("/", "") ∧
  path_split "//x" = ("//", "x") ∧ path_split "" = ("", "").
Proof. by vm_compute. Qed.

Example parents_cases :
  parents "/srv/out" = ["/"; "/srv"] ∧ parents "out" = [] ∧
  parents "p/q/" = ["p"] ∧ parents "a/b/c" = ["a"; "a/b"] ∧ parents "" = [].
Proof. by vm_compute. Qed.

Example sorted_names :
  sorted ["www.testfire.net"; "demo.testfire.net"; "Www.testfire.net"]
  = ["Www.testfire.net"; "demo.testfire.net"; "www.testfire.net"].
Proof. reflexivity. Qed.

Example found_in_subfinder_output :
  found_in "testfire.net"
    ("eviltestfire.net" +:+ LF +:+ " www.testfire.net " +:+ LF +:+ LF
       +:+ "unrelated.example.org" +:+ LF +:+ "http://testfire.net/login")
  = {["eviltestfire.net"; "www.testfire.net"; "http://testfire.net/login"]}.
Proof. apply (bool_decide_unpack _). by vm_compute. Qed.

(** ** Strings *)

Section string_facts.

Lemma app_cons (a : ascii) (p d : string) :
  String a p +:+ d = String a (p +:+ d).
Proof. reflexivity. Qed.

Lemma app_empty_l (d : string) : "" +:+ d = d.
Proof. reflexivity. Qed.

Lemma len_app (p d : string) :
  PyStr.len (p +:+ d) = (PyStr.len p + PyStr.len d)%nat.
Proof.
  unfold PyStr.len. induction p as [|a p IH]; [done|].
  rewrite app_cons. cbn [String.length]. by rewrite IH.
Qed.

Lemma drop_app (p d : string) : PyStr.drop (PyStr.len p) (p +:+ d) = d.
Proof. induction p as [|a p IH]; [done|]. exact IH. Qed.

Lemma drop_split (n : nat) (s : string) :
  (n ≤ PyStr.len s)%nat → ∃ p, s = p +:+ PyStr.drop n s ∧ PyStr.len p = n.
Proof.
  unfold PyStr.len. revert s. induction n as [|n IH]; intros s Hn.
  - by exists "".
  - destruct s as [|a s]; cbn [String.length] in Hn; [lia|].
    destruct (IH s) as (p & Hp & Hlen); [lia|].
    exists (String a p). split.
    + rewrite app_cons. cbn [PyStr.drop]. by rewrite <-Hp.
    + cbn [String.length]. by rewrite Hlen.
Qed.

(** The test of the code is the suffix relation of the specification. *)
Lemma endswith_spec (s d : string) :
  PyStr.endswith s d = true ↔ ends_with s d.
Proof.
  unfold PyStr.endswith, ends_with. split.
  - case_decide as Hle; [|done]. intros Heq%bool_decide_eq_true.
    destruct (drop_split (PyStr.len s - PyStr.len d) s) as (p & Hp & _); [lia|].
    exists p. by rewrite Heq in Hp.
  - intros [p ->]. rewrite len_app. case_decide; [|lia].
    apply bool_decide_eq_true.
    replace (PyStr.len p + PyStr.len d - PyStr.len d)%nat with (PyStr.len p) by lia.
    apply drop_app.
Qed.

Lemma endswith_Is_true (s d : string) :
  Is_true (PyStr.endswith s d) ↔ ends_with s d.
Proof. rewrite Is_true_true. apply endswith_spec. Qed.

(** A negative start index no larger than the length selects the last
    elements. *)
Lemma slice_from_last (k : Z) (l : list string) :
  0 < k ≤ Z.of_nat (length l) →
  PyStr.slice_from (- k) l = last_labels (Z.to_nat k) l.
Proof.
  intros [Hpos Hle]. unfold PyStr.slice_from, last_labels.
  case_decide; [|lia].
  rewrite take_reverse, reverse_involutive. f_equal. lia.
Qed.

End string_facts.

(** The stripped, non-blank lines of the output that contain the domain. *)
Lemma elem_of_found_in (domain out x : string) :
  x ∈ found_in domain out ↔
  ∃ line, line ∈ PyStr.splitlines out ∧
          PyStr.truthy (PyStr.strip line) ∧ PyStr.contains line domain ∧
          x = PyStr.strip line.
Proof.
  unfold found_in. rewrite elem_of_list_to_set, list_elem_of_fmap.
  split.
  - intros (line & -> & [[Ht Hc] Hin]%list_elem_of_filter). by exists line.
  - intros (line & Hin & Ht & Hc & ->). exists line. split; [done|].
    by apply list_elem_of_filter.
Qed.

(** ** Level extraction *)

Lemma elem_of_extract_subdomains_level (subdomains : gset string) (level : Z)
    (x : string) :
  x ∈ extract_subdomains_level subdomains level ↔
  ∃ sub, sub ∈ subdomains ∧
         level + 2 ≤ Z.of_nat (length (PyStr.split sub ".")) ∧
         x = PyStr.join "." (PyStr.slice_from (- (level + 2)) (PyStr.split sub ".")).
Proof.
  unfold extract_subdomains_level. rewrite elem_of_set_omap. split.
  - intros (sub & Hin & Hf). exists sub. case_decide; naive_solver.
  - intros (sub & Hin & Hlen & ->). exists sub. split; [done|].
    by rewrite decide_True.
Qed.

(** C6. For level 2 or 3, a name is in the result of the level extractor
    exactly when it is the last level+2 labels, rejoined with dots, of some
    candidate that has at least level+2 labels. The result is a set, so
    equal truncated names appear once. *)
Theorem C6_level_extractor (subdomains : gset string) (level : Z) (x : string) :
  level = 2 ∨ level = 3 →
  x ∈ extract_subdomains_level subdomains level ↔
  ∃ sub, sub ∈ subdomains ∧
         (Z.to_nat (level + 2) ≤ length (labels sub))%nat ∧
         x = PyStr.join "." (last_labels (Z.to_nat (level + 2)) (labels sub)).
Proof.
  intros Hlevel. rewrite elem_of_extract_subdomains_level. unfold labels.
  split; intros (sub & Hin & Hlen & ->); exists sub.
  - split; [done|]. split; [lia|]. rewrite slice_from_last; [done|lia].
  - split; [done|]. split; [lia|]. rewrite slice_from_last; [done|lia].
Qed.

Lemma C6_level_extractor_witness :
  (2 = 2 ∨ 2 = 3) ∧
  ("y.z.example.com" ∈
     extract_subdomains_level {["x.y.z.example.com"; "example.com"]} 2 ↔
   ∃ sub, sub ∈ ({["x.y.z.example.com"; "example.com"]} : gset string) ∧
          (Z.to_nat (2 + 2) ≤ length (labels sub))%nat ∧
          "y.z.example.com"
          = PyStr.join "." (last_labels (Z.to_nat (2 + 2)) (labels sub))).
Proof.
  split; [by left|].
  apply (C6_level_extractor {["x.y.z.example.com"; "example.com"]} 2
           "y.z.example.com").
  by left.
Defined.

(** C7, as the specification states it, fails: level 2 keeps four labels,
    so the result for "a.b.c.example.com" is not {"c.example.com"}. *)
Lemma C7_level2_example_counterexample :
  extract_subdomains_level {["a.b.c.example.com"]} 2 ≠ {["c.example.com"]}.
Proof.
  intros Heq.
  assert (Hin : "b.c.example.com" ∈ extract_subdomains_level {["a.b.c.example.com"]} 2).
  { apply elem_of_extract_subdomains_level. exists "a.b.c.example.com".
    split; [set_solver|]. split; [vm_compute; discriminate | reflexivity]. }
  rewrite Heq in Hin. apply elem_of_singleton in Hin. discriminate Hin.
Qed.

(** C7, amended. Level extraction with level 2 on {"a.b.c.example.com"}
    gives {"b.c.example.com"}; a candidate with too few labels, such as
    "example.com", contributes nothing. *)
Theorem C7_level2_example :
  extract_subdomains_level {["a.b.c.example.com"]} 2 = {["b.c.example.com"]} ∧
  extract_subdomains_level {["example.com"]} 2 = ∅ ∧
  extract_subdomains_level {["a.b.c.example.com"; "example.com"]} 2
  = {["b.c.example.com"]}.
Proof.
  split_and!; apply set_eq; intros x;
    rewrite elem_of_extract_subdomains_level.
  - rewrite elem_of_singleton. split.
    + intros (sub & ->%elem_of_singleton & _ & ->). reflexivity.
    + intros ->. exists "a.b.c.example.com".
      split; [set_solver|]. split; [vm_compute; discriminate | reflexivity].
  - split; [|set_solver].
    intros (sub & ->%elem_of_singleton & Hlen & _). vm_compute in Hlen. done.
  - rewrite elem_of_singleton. split.
    + intros (sub & [->%elem_of_singleton | ->%elem_of_singleton]%elem_of_union & Hlen & ->).
      * reflexivity.
      * vm_compute in Hlen. done.
    + intros ->. exists "a.b.c.example.com".
      split; [set_solver|]. split; [vm_compute; discriminate | reflexivity].
Qed.

(** ** The external tool runner *)

Ltac run_py :=
  unfold try_except, mbind, Py_bind, mret, Py_ret, perform,
    logging_warning, logging_info, emit; cbn beta iota.

(** C8. [run_command] always returns a string and never raises: when the
    process completes, the string is its captured standard output, and a
    non-zero exit code only adds a warning (tool name, exit code, stripped
    standard error) to the log; when running the process raises, a warning
    is logged and the string is empty. *)
Theorem C8_run_command_total (env : environment) (cmd name : string)
    (timeout : Z) (w : world) :
  ∃ out w',
    run_command env cmd name timeout w = (Ret out, w') ∧
    (∀ cp, subprocess_run env cmd timeout = Ret cp →
           out = stdout cp ∧
           (returncode cp = 0 → w' = w) ∧
           (returncode cp ≠ 0 →
            w_log w' = w_log w ++
              [LogRecord WARNING
                 (name +:+ " retorno codigo " +:+ pretty (returncode cp)
                       +:+ ": " +:+ PyStr.strip (stderr cp))])) ∧
    (∀ e, subprocess_run env cmd timeout = Raise e →
          out = "" ∧
          w_log w' = w_log w ++
            [LogRecord WARNING ("Error ejecutando " +:+ name +:+ ": " +:+ exc_str e)]).
Proof.
  unfold run_command. run_py.
  destruct (subprocess_run env cmd timeout) as [cp|e] eqn:Hrun.
  - destruct (decide (returncode cp ≠ 0)) as [Hrc|Hrc].
    + eexists _, _. split; [reflexivity|]. split; [|intros ? [=]].
      intros ? [= <-]. split; [done|]. split; [intros; lia|]. intros _.
      cbn. by rewrite decide_True by (destruct (w_level w); cbn; lia).
    + eexists _, _. split; [reflexivity|]. split; [|intros ? [=]].
      intros ? [= <-]. split; [done|]. split; [done|]. intros; lia.
  - eexists _, _. split; [reflexivity|]. split; [intros ? [=]|].
    intros ? [= <-]. split; [done|].
    cbn. by rewrite decide_True by (destruct (w_level w); cbn; lia).
Qed.

(** ** Worlds that differ by appended events *)

Lemma add_net_nil (w : world) : add_net [] w = w.
Proof. destruct w. unfold add_net. cbn. by rewrite app_nil_r. Qed.

Lemma add_net_app (a b : list net_event) (w : world) :
  add_net b (add_net a w) = add_net (a ++ b) w.
Proof. unfold add_net. cbn. by rewrite app_assoc. Qed.

(** ** One probe, as a function of the oracles *)

Lemma dns_resolve_eq (env : environment) (sub : string) (w : world) :
  dns_resolve env sub w = (Ret (dns_answer env sub), add_net (dns_events env sub) w).
Proof.
  unfold dns_resolve, socket_gethostbyname, socket_gethostbyname_ex,
    dns_answer, dns_events, record_net.
  run_py.
  destruct (gethostbyname env sub) as [a|e]; [|done].
  destruct (gethostbyname_ex env sub) as [r|e];
    unfold add_net; cbn; by rewrite <-app_assoc.
Qed.

Lemma http_check_eq (env : environment) (sub : string) (w : world) :
  http_check env sub w
  = (Ret (http_answer env sub), add_net [HttpGet ("http://" +:+ sub)] w).
Proof.
  unfold http_check, requests_get_status, http_answer, record_net. run_py.
  by destruct (requests_get env ("http://" +:+ sub) 5).
Qed.

Lemma probe_eq (env : environment) (sub : string)
    (st : gmap string probe_record * gmap string probe_record) (w : world) :
  probe env sub st w = (Ret (probe_step env st sub), add_net (probe_events env sub) w).
Proof.
  destruct st as [data act].
  unfold probe, probe_step, probe_events, promoted, record_of.
  unfold mbind, Py_bind. rewrite dns_resolve_eq.
  destruct (dns_answer env sub) as [ipo cn]. cbn [fst snd].
  destruct (truthy_str ipo) eqn:Hip.
  - rewrite http_check_eq, add_net_app. cbn [andb].
    destruct (responded (http_answer env sub)); [|done].
    by rewrite lookup_insert_eq.
  - by rewrite app_nil_r.
Qed.

Lemma for_each_probe (env : environment) (l : list string)
    (st : gmap string probe_record * gmap string probe_record) (w : world) :
  for_each l (probe env) st w
  = (Ret (foldl (probe_step env) st l), add_net (l ≫= probe_events env) w).
Proof.
  revert st w. induction l as [|sub l IH]; intros st w.
  - cbn. by rewrite add_net_nil.
  - cbn [for_each foldl]. unfold mbind at 1, Py_bind at 1.
    rewrite probe_eq, IH, add_net_app. done.
Qed.

Lemma probe_fold_data (env : environment) (l : list string)
    (st : gmap string probe_record * gmap string probe_record) (c : string) :
  (foldl (probe_step env) st l).1 !! c
  = if decide (c ∈ l) then Some (record_of env c) else st.1 !! c.
Proof.
  revert st. induction l as [|sub l IH]; intros st; [done|].
  cbn [foldl]. rewrite IH. cbn [probe_step fst].
  destruct (decide (c ∈ l)) as [Hl|Hl].
  - rewrite decide_True; [done|]. by apply list_elem_of_further.
  - destruct (decide (c = sub)) as [->|Hne].
    + rewrite lookup_insert_eq, decide_True; [done|]. apply list_elem_of_here.
    + rewrite lookup_insert_ne by done. rewrite decide_False; [done|].
      by apply not_elem_of_cons.
Qed.

Lemma probe_fold_active (env : environment) (l : list string)
    (st : gmap string probe_record * gmap string probe_record) (c : string) :
  (foldl (probe_step env) st l).2 !! c
  = if decide (c ∈ l ∧ promoted env c) then Some (record_of env c) else st.2 !! c.
Proof.
  revert st. induction l as [|sub l IH]; intros st.
  - cbn. rewrite decide_False; [done|]. by intros [?%elem_of_nil _].
  - cbn [foldl]. rewrite IH. cbn [probe_step snd].
    destruct (decide (c ∈ l ∧ promoted env c)) as [[Hl Hp]|Hl].
    + rewrite decide_True; [done|]. split; [by apply list_elem_of_further|done].
    + destruct (decide (c = sub)) as [->|Hne].
      * destruct (promoted env sub) eqn:Hp.
        -- rewrite lookup_insert_eq, decide_True; [done|].
           split; [apply list_elem_of_here|done].
        -- rewrite decide_False; [done|]. intros [_ []].
      * assert (¬ (c ∈ sub :: l ∧ promoted env c)).
        { intros [[?|?]%elem_of_cons ?]; [done|]. by apply Hl. }
        rewrite decide_False by done.
        destruct (promoted env sub); [by rewrite lookup_insert_ne|done].
Qed.

(** ** Steps that only log *)

Lemma only_logs_ret {A} (a : A) : only_logs (mret a) a.
Proof. intros w. by exists w. Qed.

Lemma only_logs_bind {A B} (m : Py A) (f : A → Py B) (a : A) (b : B) :
  only_logs m a → only_logs (f a) b → only_logs (m ≫= f) b.
Proof.
  intros Hm Hf w. destruct (Hm w) as (w1 & Hrun & ? & ? & ? & ?).
  destruct (Hf w1) as (w2 & Hrun' & ? & ? & ? & ?).
  exists w2. unfold mbind, Py_bind. rewrite Hrun, Hrun'.
  split_and!; [done|congruence..].
Qed.

Lemma only_logs_emit (lvl : log_level) (msg : string) :
  only_logs (emit lvl msg) ().
Proof. intros w. by eexists. Qed.

Lemma only_logs_for_each {A S} (l : list A) (body : A → S → Py S)
    (step : S → A → S) (s : S) :
  (∀ x s', only_logs (body x s') (step s' x)) →
  only_logs (for_each l body s) (foldl step s l).
Proof.
  intros Hbody. revert s. induction l as [|x l IH]; intros s.
  - apply only_logs_ret.
  - cbn [for_each foldl]. eapply only_logs_bind; [apply Hbody|apply IH].
Qed.

Lemma only_logs_check_tool (env : environment) (cmd name : string) :
  only_logs (check_tool env cmd name) (tool_available env cmd).
Proof.
  intros w. unfold check_tool, tool_available. run_py.
  destruct (subprocess_run env cmd 10); by eexists.
Qed.

Lemma only_logs_run_command (env : environment) (cmd name : string) (t : Z) :
  only_logs (run_command env cmd name t) (command_output env cmd t).
Proof.
  intros w. unfold run_command, command_output. run_py.
  destruct (subprocess_run env cmd t) as [cp|e]; [|by eexists].
  case_decide; by eexists.
Qed.

Lemma only_logs_run_tool (env : environment) (domain : string)
    (tool : string * (string * list string)) (st : list string * gset string) :
  only_logs (run_tool env domain tool st) (tool_step env domain st tool).
Proof.
  destruct tool as [name [cmd check]], st as [avail agg].
  unfold run_tool, tool_step, tool_found. cbn [fst snd].
  eapply only_logs_bind; [apply only_logs_check_tool|].
  destruct (tool_available env (PyStr.join " " check +:+ " --help")).
  - eapply only_logs_bind; [apply only_logs_emit|].
    eapply only_logs_bind; [apply only_logs_run_command|].
    eapply only_logs_bind; [apply only_logs_emit|].
    apply only_logs_ret.
  - eapply only_logs_bind; [apply only_logs_emit|].
    apply only_logs_ret.
Qed.

Lemma only_logs_run_tools (env : environment) (domain : string) :
  only_logs (run_tools env domain)
            (foldl (tool_step env domain) ([], ∅) (tools domain)).
Proof. apply only_logs_for_each. intros. apply only_logs_run_tool. Qed.

(** The aggregated set is the union of what the tools contribute. *)
Lemma tool_step_aggregated (env : environment) (domain : string)
    (l : list (string * (string * list string))) (st : list string * gset string)
    (x : string) :
  x ∈ (foldl (tool_step env domain) st l).2 ↔
  x ∈ st.2 ∨ ∃ tool, tool ∈ l ∧ x ∈ tool_found env domain tool.
Proof.
  revert st. induction l as [|tool l IH]; intros st.
  - cbn [foldl]. split; [by left|].
    intros [Hin|(tool & Hnil & _)]; [done|]. by apply elem_of_nil in Hnil.
  - cbn [foldl]. rewrite IH. clear IH.
    assert (Hstep : x ∈ (tool_step env domain st tool).2 ↔
                    x ∈ st.2 ∨ x ∈ tool_found env domain tool).
    { unfold tool_step, tool_found.
      destruct (tool_available env _); cbn [snd]; [apply elem_of_union|].
      split; [by left|]. intros [Hin|Hin]; [done|].
      by apply not_elem_of_empty in Hin. }
    rewrite Hstep. split.
    + intros [[Hin|Hin]|(t & Ht & Hin)].
      * by left.
      * right. exists tool. split; [apply list_elem_of_here|done].
      * right. exists t. split; [by apply list_elem_of_further|done].
    + intros [Hin|(t & [->|Ht]%elem_of_cons & Hin)].
      * left. by left.
      * left. by right.
      * right. by exists t.
Qed.

(** ** Paths *)













(** ** The report paths *)

Lemma app_assoc_str (a b c : string) : (a +:+ b) +:+ c = a +:+ b +:+ c.
Proof. induction a as [|x a IH]; [done|]. by rewrite !app_cons, IH. Qed.

Lemma os_path_join_relative (a b : string) :
  PyStr.startswith b "/" = false → os_path_join a b = dir_prefix a +:+ b.
Proof.
  intros Hrel. unfold os_path_join, dir_prefix. rewrite Hrel.
  destruct (negb (PyStr.truthy a) || PyStr.endswith a "/"); [done|].
  by rewrite app_assoc_str.
Qed.

Lemma report_paths_distinct (output_dir domain timestamp : string) :
  let base := os_path_join output_dir
                ("subdominios_completos_" +:+ domain +:+ "_" +:+ timestamp) in
  let base_act := os_path_join output_dir
                    ("subdominios_activos_" +:+ domain +:+ "_" +:+ timestamp) in
  NoDup [base +:+ ".json"; base_act +:+ ".json"; base +:+ ".txt"; base_act +:+ ".txt"].
Proof.
  intros base base_act. subst base base_act.
  rewrite !os_path_join_relative by reflexivity.
  set (tail := domain +:+ "_" +:+ timestamp).
  set (pre := dir_prefix output_dir).
  assert (Hsame : ∀ x e1 e2, e1 ≠ e2 → (pre +:+ x) +:+ e1 ≠ (pre +:+ x) +:+ e2).
  { intros x e1 e2 Hne Heq. by apply (inj _) in Heq. }
  assert (Hdiff : ∀ e1 e2,
    (pre +:+ "subdominios_completos_" +:+ tail) +:+ e1
    ≠ (pre +:+ "subdominios_activos_" +:+ tail) +:+ e2).
  { intros e1 e2 Heq. rewrite !app_assoc_str in Heq. apply (inj _) in Heq.
    rewrite !app_cons in Heq. simplify_eq. }
  repeat constructor; rewrite ?elem_of_cons, elem_of_nil.
  - intros [H|[H|[H|[]]]]; [by apply Hdiff in H | by apply Hsame in H | by apply Hdiff in H].
  - intros [H|[H|[]]]; [symmetry in H; by apply Hdiff in H | by apply Hsame in H].
  - intros [H|[]]. by apply Hdiff in H.
  - intros [].
Qed.

Lemma probe_all_eq (env : environment) (S : gset string) (w : world) :
  probe_all env S w = (Ret (probed env S), add_net (probed_events env S) w).
Proof. apply for_each_probe. Qed.

(** ** The whole run *)

Lemma runs_ret {A} (a : A) (w : world) (Q : outcome A → world → Prop) :
  Q (Ret a) w → runs (mret a) w Q.
Proof. intros HQ. by exists (Ret a), w. Qed.

Lemma runs_bind_eq {A B} (m : Py A) (f : A → Py B) (w w1 : world) (a : A)
    (Q : outcome B → world → Prop) :
  m w = (Ret a, w1) → runs (f a) w1 Q → runs (m ≫= f) w Q.
Proof.
  intros Hm (b & w2 & Hf & HQ). exists b, w2. split; [|done].
  unfold mbind, Py_bind. by rewrite Hm.
Qed.

Lemma runs_bind_raise {A B} (m : Py A) (f : A → Py B) (w w1 : world)
    (e : exception) (Q : outcome B → world → Prop) :
  m w = (Raise e, w1) → Q (Raise e) w1 → runs (m ≫= f) w Q.
Proof.
  intros Hm HQ. exists (Raise e), w1. split; [|done].
  unfold mbind, Py_bind. by rewrite Hm.
Qed.

Lemma probe_all_eq_pair (env : environment) (S : gset string) (w : world) :
  probe_all env S w
  = (Ret ((probed env S).1, (probed env S).2), add_net (probed_events env S) w).
Proof. rewrite probe_all_eq. by destruct (probed env S). Qed.

(** One step of a sequence: the step returns, and what it leaves of the
    network trace, the directories and the files is known. The world after
    the step is only known through these three facts. *)
Lemma runs_bind_frame {A B} (m : Py A) (f : A → Py B) (w : world) (a : A)
    (Q : outcome B → world → Prop) (N : list net_event) (D : gset string)
    (F : gmap string file_content) :
  (∃ w', m w = (Ret a, w') ∧ w_net w' = N ∧ w_dirs w' = D ∧ w_files w' = F) →
  (∀ w', w_net w' = N → w_dirs w' = D → w_files w' = F → runs (f a) w' Q) →
  runs (m ≫= f) w Q.
Proof.
  intros (w' & Hm & HN & HD & HF) Hk.
  eapply runs_bind_eq; [exact Hm|]. by apply Hk.
Qed.

(** The two ways [os.makedirs] ends. *)
Lemma os_makedirs_cases (env : environment) (path : string) (w : world) :
  (makedirs_ok env path (w_files w) ∧
   os_makedirs env path w
   = (Ret (), World (w_level w) (w_log w) (w_net w)
                    (makedirs_dirs path (w_dirs w)) (w_files w))) ∨
  (¬ makedirs_ok env path (w_files w) ∧
   ∃ e, os_makedirs env path w = (Raise e, w)).
Proof.
  unfold os_makedirs, makedirs_ok. case_decide as Hblocked.
  - right. split; [by intros [? _]|]. by eexists.
  - destruct (makedirs_refused env path) as [e|].
    + right. split; [by intros [_ ?]|]. by eexists.
    + by left.
Qed.

(** The two ways the writing of a file ends. *)
Lemma write_file_cases (env : environment) (path : string)
    (content : file_content) (w : world) :
  (write_ok env path (w_dirs w) ∧
   write_file env path content w
   = (Ret (), World (w_level w) (w_log w) (w_net w) (w_dirs w)
                    (<[path := content]> (w_files w)))) ∨
  (¬ write_ok env path (w_dirs w) ∧
   ∃ e w', write_file env path content w = (Raise e, w')).
Proof.
  unfold write_file, write_ok. case_decide as Hdir.
  - right. split; [by intros [? _]|]. by eexists _, _.
  - destruct (open_refused env path) as [e|].
    + right. split; [by intros (_ & ? & _)|]. by eexists _, _.
    + destruct (write_refused env path) as [e|].
      * right. split; [by intros (_ & _ & ?)|]. by eexists _, _.
      * by left.
Qed.

(** What is known of the current world, in terms of the first one. *)
Ltac use_facts :=
  repeat match goal with
         | H : w_net ?v = _ |- context [w_net ?v] => rewrite H
         | H : w_dirs ?v = _ |- context [w_dirs ?v] => rewrite H
         | H : w_files ?v = _ |- context [w_files ?v] => rewrite H
         end.

Ltac run_intro :=
  let w' := fresh "w" in
  let Hn := fresh "Hnet" in
  let Hd := fresh "Hdirs" in
  let Hf := fresh "Hfiles" in
  intros w' Hn Hd Hf;
  cbn [w_net w_dirs w_files add_net] in Hn, Hd, Hf;
  cbv beta iota.

Ltac frame_facts :=
  split_and!; cbn [w_net w_dirs w_files add_net]; use_facts; reflexivity.

Ltac run_step :=
  eapply runs_bind_frame;
  [eexists; split; [reflexivity | frame_facts] | run_intro].

(** The writing of one report: either it raises, and then the file system
    did not let the run through, or the run goes on. *)
Ltac write_step Hok :=
  match goal with
  | |- runs (write_file ?env ?p ?c ≫= _) ?v _ =>
      let Hno := fresh "Hno" in
      let Hrun := fresh "Hrun" in
      let e := fresh "e" in
      let wr := fresh "wr" in
      let Hall := fresh "Hall" in
      destruct (write_file_cases env p c v) as [[Hok Hrun]|[Hno (e & wr & Hrun)]];
      [ eapply runs_bind_frame;
        [eexists; split; [exact Hrun | frame_facts] | clear Hrun; run_intro]
      | eapply runs_bind_raise; [exact Hrun|];
        intros [_ Hall]; apply Hno; use_facts;
        unfold report_paths in Hall;
        repeat (apply Forall_cons in Hall as [? Hall]); assumption ]
  end.

(** [main] ends as [main_ends] says, for every environment. *)
Lemma main_runs (env : environment) (args : arguments) (w : world) :
  runs (main env args) w (main_ends env args w).
Proof.
  unfold main.
  eapply runs_bind_frame.
  { instantiate (4 := ()).
    destruct (arg_verbose args); eexists; (split; [reflexivity|]);
      split_and!; reflexivity. }
  run_intro. cbv zeta.
  match goal with |- runs _ ?v _ =>
    destruct (os_makedirs_cases env (arg_output args) v)
      as [[Hmk Hrun]|[Hmk (e & Hrun)]]
  end.
  2: { eapply runs_bind_raise; [exact Hrun|]. intros [Hok _]. apply Hmk.
       by use_facts. }
  eapply runs_bind_frame; [eexists; split; [exact Hrun | frame_facts]|].
  clear Hrun. run_intro.
  run_step.
  pose proof (only_logs_run_tools env (arg_domain args)) as Hrt.
  destruct (foldl (tool_step env (arg_domain args)) ([], ∅) (tools (arg_domain args)))
    as [avail agg] eqn:Htools.
  match goal with |- runs _ ?w1 _ =>
    destruct (Hrt w1) as (wt & Hrun & _ & Htn & Htd & Htf)
  end.
  eapply runs_bind_frame;
    [exists wt; split; [exact Hrun|]; split_and!;
       [rewrite Htn|rewrite Htd|rewrite Htf]; use_facts; reflexivity|].
  clear Hrt Hrun Htn Htd Htf. run_intro.
  run_step. run_step.
  eapply runs_bind_frame.
  { eexists. split; [apply probe_all_eq_pair|]. frame_facts. }
  run_intro.
  write_step Hok1. write_step Hok2. write_step Hok3. write_step Hok4.
  run_step. run_step.
  apply runs_ret. split.
  { split.
    - revert Hmk. by use_facts.
    - revert Hok1 Hok2 Hok3 Hok4. use_facts. intros.
      unfold report_paths. do 4 (constructor; [assumption|]). constructor. }
  constructor;
    cbn [domain available_tools aggregated all_subdomains subdomain_data
         active_subdomains lvl2 lvl3 stats metadata base base_act];
    try reflexivity.
  - symmetry. exact Htools.
  - symmetry. apply surjective_pairing.
  - by use_facts.
  - unfold report_files.
    cbn [domain available_tools aggregated all_subdomains subdomain_data
         active_subdomains lvl2 lvl3 stats metadata base base_act].
    cbn [foldl fst snd]. by use_facts.
  - by use_facts.
Qed.

(** When the file system lets the run through, [main] returns. *)
Lemma main_returns (env : environment) (args : arguments) (w : world) :
  fs_ok env args w →
  ∃ L w', main env args w = (Ret L, w') ∧ main_post env args w L w'.
Proof.
  intros Hok. destruct (main_runs env args w) as ([L|e] & w' & Hmain & Hends).
  - exists L, w'. split; [done|]. by destruct Hends.
  - by destruct Hends.
Qed.

(** When [main] returns, the file system let the run through. *)
Lemma main_returned (env : environment) (args : arguments) (w w' : world)
    (L : main_locals) :
  main env args w = (Ret L, w') → fs_ok env args w ∧ main_post env args w L w'.
Proof.
  intros Hmain. destruct (main_runs env args w) as (r & w1 & Hrun & Hends).
  rewrite Hmain in Hrun. by simplify_eq.
Qed.

Lemma elem_of_aggregated (env : environment) (args : arguments) (w w' : world)
    (L : main_locals) (x : string) :
  main_post env args w L w' →
  x ∈ aggregated L ↔
  ∃ tool, tool ∈ tools (arg_domain args) ∧ x ∈ tool_found env (arg_domain args) tool.
Proof.
  intros HL. pose proof (post_tools _ _ _ _ _ HL) as Ht.
  replace (aggregated L)
    with (foldl (tool_step env (arg_domain args)) ([], ∅) (tools (arg_domain args))).2
    by (by rewrite <-Ht).
  rewrite tool_step_aggregated. cbn [snd]. split; [|by right].
  intros [Hin|Hin]; [|done]. by apply not_elem_of_empty in Hin.
Qed.

Lemma elem_of_all_subdomains (env : environment) (args : arguments) (w w' : world)
    (L : main_locals) (x : string) :
  main_post env args w L w' →
  x ∈ all_subdomains L ↔ x ∈ aggregated L ∧ ends_with x (arg_domain args).
Proof.
  intros HL. rewrite (post_clean _ _ _ _ _ HL). unfold clean.
  rewrite elem_of_filter, endswith_Is_true. tauto.
Qed.

(** ** The probing phase *)

Section probing.
Context (env : environment).

Lemma elem_of_as_completed (S : gset string) (c : string) :
  c ∈ as_completed env (elements S) ↔ c ∈ S.
Proof. rewrite (as_completed_once env (elements S)). apply elem_of_elements. Qed.

Lemma probed_data_lookup (S : gset string) (c : string) :
  (probed env S).1 !! c = if decide (c ∈ S) then Some (record_of env c) else None.
Proof.
  unfold probed. rewrite probe_fold_data. cbn [fst].
  destruct (decide (c ∈ S)) as [Hin|Hin].
  - rewrite decide_True; [done|]. by apply elem_of_as_completed.
  - rewrite decide_False; [done|]. by rewrite elem_of_as_completed.
Qed.

Lemma probed_active_lookup (S : gset string) (c : string) :
  (probed env S).2 !! c
  = if decide (c ∈ S ∧ promoted env c) then Some (record_of env c) else None.
Proof.
  unfold probed. rewrite probe_fold_active. cbn [snd].
  destruct (decide (c ∈ S ∧ promoted env c)) as [[Hin Hp]|Hno].
  - rewrite decide_True; [done|]. split; [|done]. by apply elem_of_as_completed.
  - rewrite decide_False; [done|]. by rewrite elem_of_as_completed.
Qed.

Lemma probed_data_dom (S : gset string) : dom (probed env S).1 = S.
Proof.
  apply set_eq. intros c. rewrite elem_of_dom, probed_data_lookup.
  case_decide; split; intros H'; try done; by destruct H'.
Qed.

Lemma probed_active_dom (S : gset string) : dom (probed env S).2 ⊆ S.
Proof.
  intros c. rewrite elem_of_dom, probed_active_lookup.
  case_decide as Hc; [by destruct Hc|]. by intros [].
Qed.

End probing.

Lemma dns_queries_app (a b : list net_event) :
  dns_queries (a ++ b) = dns_queries a ++ dns_queries b.
Proof. apply omap_app. Qed.

Lemma dns_queries_probe_events (env : environment) (sub : string) :
  dns_queries (probe_events env sub) = [sub].
Proof.
  unfold probe_events, dns_events. rewrite dns_queries_app.
  destruct (gethostbyname env sub), (truthy_str _); reflexivity.
Qed.

Lemma dns_queries_bind (env : environment) (l : list string) :
  dns_queries (l ≫= probe_events env) = l.
Proof.
  induction l as [|c l IH]; [done|].
  rewrite bind_cons, dns_queries_app, dns_queries_probe_events, IH. done.
Qed.

Lemma http_get_probe_events (env : environment) (sub c : string) :
  HttpGet ("http://" +:+ c) ∈ probe_events env sub →
  sub = c ∧ truthy_str (dns_answer env c).1 = true.
Proof.
  unfold probe_events, dns_events. rewrite elem_of_app, elem_of_cons.
  intros [[Heq|Hin]|Hin].
  - discriminate Heq.
  - destruct (gethostbyname env sub).
    + apply list_elem_of_singleton in Hin. discriminate Hin.
    + by apply elem_of_nil in Hin.
  - destruct (truthy_str (dns_answer env sub).1) eqn:Hip;
      [|by apply elem_of_nil in Hin].
    apply list_elem_of_singleton in Hin. injection Hin as Heq.
    apply (inj _) in Heq. by subst.
Qed.

(** A promoted candidate has an address and a non-zero status below 600. *)
Lemma promoted_record (env : environment) (c : string) :
  promoted env c = true →
  ∃ a cn st, record_of env c = ProbeRecord (Some a) cn (Some st) ∧
             PyStr.truthy a ∧ st ≠ 0 ∧ st < 600.
Proof.
  unfold promoted, record_of, responded, truthy_int.
  destruct (dns_answer env c) as [[a|] cn]; cbn [fst truthy_str]; [|done].
  intros [Ha [Hnz Hlt]%andb_prop]%andb_prop. rewrite Ha.
  destruct (http_answer env c) as [st|]; [|done].
  apply bool_decide_eq_true in Hnz, Hlt.
  exists a, cn, st. by rewrite Ha.
Qed.

(** ** Files written by a run *)

Lemma foldl_insert_notin (fs : gmap string file_content)
    (l : list (string * file_content)) (p : string) :
  p ∉ l.*1 → foldl (λ fs pc, <[pc.1 := pc.2]> fs) fs l !! p = fs !! p.
Proof.
  revert fs. induction l as [|[p1 c1] l IH]; intros fs Hnot; [done|].
  cbn [foldl fst snd]. rewrite fmap_cons, not_elem_of_cons in Hnot.
  destruct Hnot as [Hne Hnot]. rewrite IH by done. by rewrite lookup_insert_ne.
Qed.

Lemma foldl_insert_lookup (fs : gmap string file_content)
    (l : list (string * file_content)) (p : string) (c : file_content) :
  NoDup l.*1 → (p, c) ∈ l →
  foldl (λ fs pc, <[pc.1 := pc.2]> fs) fs l !! p = Some c.
Proof.
  revert fs. induction l as [|[p1 c1] l IH]; intros fs Hnd Hin.
  - by apply elem_of_nil in Hin.
  - rewrite fmap_cons in Hnd. apply NoDup_cons in Hnd as [Hnot Hnd].
    cbn [foldl fst snd]. apply elem_of_cons in Hin as [[= -> ->]|Hin].
    + rewrite foldl_insert_notin by done. apply lookup_insert_eq.
    + by apply IH.
Qed.

Lemma report_files_NoDup (env : environment) (args : arguments) (w w' : world)
    (L : main_locals) :
  main_post env args w L w' → NoDup (report_files L).*1.
Proof.
  intros HL. unfold report_files. cbn [fmap list_fmap fst].
  rewrite (post_base _ _ _ _ _ HL), (post_base_act _ _ _ _ _ HL).
  apply report_paths_distinct.
Qed.

Lemma report_files_written (env : environment) (args : arguments) (w w' : world)
    (L : main_locals) (p : string) (c : file_content) :
  main_post env args w L w' → (p, c) ∈ report_files L → w_files w' !! p = Some c.
Proof.
  intros HL Hin. rewrite (post_files _ _ _ _ _ HL).
  apply foldl_insert_lookup; [|done]. by eapply report_files_NoDup.
Qed.

Lemma main_files (env : environment) (args : arguments) (w w' : world)
    (L : main_locals) :
  main_post env args w L w' →
  w_files w' !! (base L +:+ ".json")
    = Some (JsonFile (JsonReport (metadata L) (subdomain_data L))) ∧
  w_files w' !! (base_act L +:+ ".json")
    = Some (JsonFile (JsonReport (metadata L) (active_subdomains L))) ∧
  w_files w' !! (base L +:+ ".txt")
    = Some (TextFile (write_lines (sorted (elements (all_subdomains L))))) ∧
  w_files w' !! (base_act L +:+ ".txt")
    = Some (TextFile (write_lines (sorted (elements (dom (active_subdomains L)))))).
Proof.
  intros HL. split_and!; (eapply report_files_written; [exact HL|]);
    unfold report_files.
  - apply list_elem_of_here.
  - apply list_elem_of_further, list_elem_of_here.
  - do 2 apply list_elem_of_further. apply list_elem_of_here.
  - do 3 apply list_elem_of_further. apply list_elem_of_here.
Qed.

(** ** Line boundaries *)

Lemma app_empty_r (s : string) : s +:+ "" = s.
Proof. induction s as [|c s IH]; [done|]. by rewrite app_cons, IH. Qed.

Lemma rev_app_app (s1 s2 t : string) :
  String.rev_app s1 s2 +:+ t = String.rev_app s1 (s2 +:+ t).
Proof.
  revert s2. induction s1 as [|a s1 IH]; intros s2; [done|].
  cbn [String.rev_app]. by rewrite IH, app_cons.
Qed.

Lemma rev_app_append (a b t : string) :
  String.rev_app (a +:+ b) t = String.rev_app b (String.rev_app a t).
Proof.
  revert t. induction a as [|x a IH]; intros t; [done|].
  rewrite app_cons. cbn [String.rev_app]. by rewrite IH.
Qed.

Lemma rev_app_rev_app (s1 s2 t : string) :
  String.rev_app (String.rev_app s1 s2) t = String.rev_app s2 (s1 +:+ t).
Proof.
  revert s2 t. induction s1 as [|a s1 IH]; intros s2 t; [done|].
  cbn [String.rev_app]. rewrite IH. cbn [String.rev_app]. by rewrite app_cons.
Qed.

Lemma rev_involutive (s : string) : String.rev (String.rev s) = s.
Proof.
  unfold String.rev. rewrite rev_app_rev_app. cbn [String.rev_app].
  apply app_empty_r.
Qed.

Lemma rev_append (a b : string) :
  String.rev (a +:+ b) = String.rev b +:+ String.rev a.
Proof.
  unfold String.rev. rewrite rev_app_append, rev_app_app. by rewrite app_empty_l.
Qed.

Lemma lookahead_prefix (c : ascii) (l q : string) :
  lookahead c (l +:+ q) = false → lookahead c l = false.
Proof.
  destruct l as [|c2 [|c3 l]]; [done|..]; rewrite !app_cons; cbn [lookahead].
  - by intros [? _]%orb_false_elim; rewrite orb_false_r.
  - done.
Qed.

Lemma has_break_suffix (p q : string) :
  has_break (p +:+ q) = false → has_break q = false.
Proof.
  induction p as [|c p IH]; [done|]. rewrite app_cons. cbn [has_break].
  intros [_ ?]%orb_false_elim. by apply IH.
Qed.

Lemma has_break_prefix (p q : string) :
  has_break (p +:+ q) = false → has_break p = false.
Proof.
  induction p as [|c p IH]; [done|]. rewrite app_cons. cbn [has_break].
  intros [[[H1 Hcr]%orb_false_elim Hla]%orb_false_elim Hrest]%orb_false_elim.
  by rewrite H1, Hcr, (lookahead_prefix _ _ _ Hla), (IH Hrest).
Qed.

Lemma cons_char_lines (c1 : ascii) (r1 : string) :
  PyStr.linebreak1 c1 = false → PyStr.is_cr c1 = false → lookahead c1 r1 = false →
  Forall (λ l, has_break l = false) (PyStr.splitlines r1) →
  (∀ l ls, PyStr.splitlines r1 = l :: ls → ∃ q, r1 = l +:+ q) →
  Forall (λ l, has_break l = false) (PyStr.cons_char c1 (PyStr.splitlines r1)) ∧
  (∀ l ls, PyStr.cons_char c1 (PyStr.splitlines r1) = l :: ls →
           ∃ q, String c1 r1 = l +:+ q).
Proof.
  intros H1 Hcr Hla Hall Hpre.
  destruct (PyStr.splitlines r1) as [|l ls] eqn:Hs; cbn [PyStr.cons_char].
  - split.
    + constructor; [|done]. cbn [has_break lookahead]. by rewrite H1, Hcr.
    + intros ? ? [= <- <-]. by exists r1.
  - apply Forall_cons in Hall as [Hl Hls]. destruct (Hpre l ls eq_refl) as [q ->].
    split.
    + constructor; [|done]. cbn [has_break].
      by rewrite H1, Hcr, (lookahead_prefix _ _ _ Hla), Hl.
    + intros ? ? [= <- <-]. by exists q.
Qed.

(** A line of [splitlines] contains no line boundary, and the first line
    is a prefix of the text. *)
Lemma splitlines_lines (n : nat) (s : string) :
  (String.length s ≤ n)%nat →
  Forall (λ l, has_break l = false) (PyStr.splitlines s) ∧
  (∀ l ls, PyStr.splitlines s = l :: ls → ∃ q, s = l +:+ q).
Proof.
  revert s. induction n as [|n IH]; intros s Hn.
  { destruct s; [|cbn in Hn; lia]. split; [constructor|]. by intros ? ? [=]. }
  destruct s as [|c1 r1]; [split; [constructor|by intros ? ? [=]]|].
  cbn [String.length] in Hn.
  assert (Hempty : ∀ r, (String.length r ≤ n)%nat →
    Forall (λ l, has_break l = false) ("" :: PyStr.splitlines r) ∧
    (∀ l ls, "" :: PyStr.splitlines r = l :: ls → ∃ q, String c1 r1 = l +:+ q)).
  { intros r Hr. split; [constructor; [done|by apply IH]|].
    intros ? ? [= <- <-]. by exists (String c1 r1). }
  cbn [PyStr.splitlines].
  destruct (PyStr.linebreak1 c1) eqn:H1; [apply Hempty; lia|].
  destruct (PyStr.is_cr c1) eqn:Hcr.
  { destruct r1 as [|c2 r2].
    - split; [by repeat constructor|]. intros ? ? [= <- <-]. by eexists.
    - cbn [String.length] in Hn.
      destruct (PyStr.is_lf c2); apply Hempty; cbn [String.length]; lia. }
  destruct r1 as [|c2 r2].
  { split.
    - constructor; [|done]. cbn [has_break lookahead]. by rewrite H1, Hcr.
    - intros ? ? [= <- <-]. by exists "". }
  cbn [String.length] in Hn.
  destruct (PyStr.linebreak2 c1 c2) eqn:H2; [apply Hempty; lia|].
  destruct r2 as [|c3 r3].
  { apply cons_char_lines; try done.
    - cbn [lookahead]. by rewrite H2.
    - apply IH. cbn [String.length]. lia.
    - apply IH. cbn [String.length]. lia. }
  cbn [String.length] in Hn.
  destruct (PyStr.linebreak3 c1 c2 c3) eqn:H3; [apply Hempty; lia|].
  apply cons_char_lines; try done.
  - cbn [lookahead]. by rewrite H2, H3.
  - apply IH. cbn [String.length]. lia.
  - apply IH. cbn [String.length]. lia.
Qed.

Lemma lstrip_gen_suffix (rv : bool) (n : nat) (s : string) :
  (String.length s ≤ n)%nat → ∃ p, s = p +:+ PyStr.lstrip_gen rv s.
Proof.
  revert s. induction n as [|n IH]; intros s Hn.
  { destruct s; [by exists ""|cbn in Hn; lia]. }
  destruct s as [|c1 r1]; [by exists ""|]. cbn [String.length] in Hn.
  cbn [PyStr.lstrip_gen].
  destruct (PyStr.space1 c1).
  { destruct (IH r1) as [p Hp]; [lia|]. exists (String c1 p).
    by rewrite app_cons, <-Hp. }
  destruct r1 as [|c2 r2]; [by exists ""|]. cbn [String.length] in Hn.
  destruct (if rv then PyStr.space2 c2 c1 else PyStr.space2 c1 c2).
  { destruct (IH r2) as [p Hp]; [lia|]. exists (String c1 (String c2 p)).
    by rewrite !app_cons, <-Hp. }
  destruct r2 as [|c3 r3]; [by exists ""|]. cbn [String.length] in Hn.
  destruct (if rv then PyStr.space3 c3 c2 c1 else PyStr.space3 c1 c2 c3).
  { destruct (IH r3) as [p Hp]; [lia|]. exists (String c1 (String c2 (String c3 p))).
    by rewrite !app_cons, <-Hp. }
  by exists "".
Qed.

(** Stripping a string cuts it out of the middle. *)
Lemma strip_middle (s : string) : ∃ p q, s = p +:+ PyStr.strip s +:+ q.
Proof.
  unfold PyStr.strip, PyStr.rstrip, PyStr.lstrip.
  destruct (lstrip_gen_suffix false _ s (le_n _)) as [p Hp].
  set (t := PyStr.lstrip_gen false s) in *.
  destruct (lstrip_gen_suffix true _ (String.rev t) (le_n _)) as [q Hq].
  exists p, (String.rev q). rewrite <-rev_append, <-Hq, rev_involutive. exact Hp.
Qed.

Lemma strip_no_break (s : string) :
  has_break s = false → has_break (PyStr.strip s) = false.
Proof.
  intros Hs. destruct (strip_middle s) as (p & q & Heq). rewrite Heq in Hs.
  by apply has_break_suffix, has_break_prefix in Hs.
Qed.

Lemma found_in_no_break (domain out x : string) :
  x ∈ found_in domain out → has_break x = false.
Proof.
  intros (line & Hline & _ & _ & ->)%elem_of_found_in.
  apply strip_no_break.
  destruct (splitlines_lines _ out (le_n _)) as [Hall _].
  by apply (proj1 (Forall_forall _ _) Hall).
Qed.

Lemma linebreak_lf :
  PyStr.linebreak1 (PyStr.byte 10) = true ∧
  (∀ c, PyStr.linebreak2 c (PyStr.byte 10) = false) ∧
  (∀ c1 c2, PyStr.linebreak3 c1 c2 (PyStr.byte 10) = false) ∧
  (∀ c1 c3, PyStr.linebreak3 c1 (PyStr.byte 10) c3 = false).
Proof.
  split; [done|]. split_and!; intros; apply bool_decide_eq_false.
  - intros [_ H]. by vm_compute in H.
  - intros (_ & _ & [H|H]); by vm_compute in H.
  - intros (_ & H & _). by vm_compute in H.
Qed.

(** A line without a boundary, followed by a line feed, is read back as
    that line. *)
Lemma splitlines_line (x rest : string) :
  has_break x = false →
  PyStr.splitlines (x +:+ PyStr.bytes [10%N] +:+ rest) = x :: PyStr.splitlines rest.
Proof.
  destruct linebreak_lf as (Hlf1 & Hlf2 & Hlf3 & Hlf3').
  change (PyStr.bytes [10%N]) with (String (PyStr.byte 10) "").
  induction x as [|c1 r1 IH]; intros Hx.
  - rewrite app_empty_l, app_cons, app_empty_l. cbn [PyStr.splitlines].
    by rewrite Hlf1.
  - cbn [has_break] in Hx.
    apply orb_false_elim in Hx as [[[H1 Hcr]%orb_false_elim Hla]%orb_false_elim Hrest].
    specialize (IH Hrest). rewrite app_cons. cbn [PyStr.splitlines].
    rewrite H1, Hcr.
    destruct r1 as [|c2 r2].
    + rewrite app_empty_l, app_cons, app_empty_l in *. rewrite Hlf2.
      destruct rest as [|c3 r3]; [by rewrite IH|]. by rewrite Hlf3', IH.
    + rewrite app_cons in *. cbn [lookahead] in Hla.
      apply orb_false_elim in Hla as [H2 H3]. rewrite H2.
      destruct r2 as [|c3 r3].
      * rewrite app_empty_l, app_cons, app_empty_l in *. by rewrite Hlf3, IH.
      * rewrite app_cons in *. by rewrite H3, IH.
Qed.

Lemma splitlines_write_lines (names : list string) :
  Forall (λ l, has_break l = false) names →
  PyStr.splitlines (write_lines names) = names.
Proof.
  induction names as [|x names IH]; [done|]. intros [Hx Hnames]%Forall_cons.
  cbn [write_lines]. rewrite app_assoc_str, splitlines_line by done.
  by rewrite IH.
Qed.

Lemma write_lines_join (names : list string) :
  write_lines names = PyStr.join "" ((λ name, name +:+ LF) <$> names).
Proof.
  unfold PyStr.join. induction names as [|x names IH]; [done|].
  cbn [write_lines fmap list_fmap]. rewrite IH. fold LF.
  destruct names as [|y names]; cbn [fmap list_fmap String.concat].
  - apply app_empty_r.
  - by rewrite app_empty_l.
Qed.

(** No candidate of a run contains a line boundary. *)
Lemma candidates_no_break (env : environment) (args : arguments) (w w' : world)
    (L : main_locals) (c : string) :
  main_post env args w L w' → c ∈ all_subdomains L → has_break c = false.
Proof.
  intros HL [Hagg _]%(elem_of_all_subdomains _ _ _ _ _ _ HL).
  apply (elem_of_aggregated _ _ _ _ _ _ HL) in Hagg as (tool & _ & Hc).
  unfold tool_found in Hc. destruct (tool_available env _).
  - by eapply found_in_no_break.
  - by apply not_elem_of_empty in Hc.
Qed.

Lemma active_dom_candidates (env : environment) (args : arguments) (w w' : world)
    (L : main_locals) :
  main_post env args w L w' → dom (active_subdomains L) ⊆ all_subdomains L.
Proof.
  intros HL. pose proof (post_probe _ _ _ _ _ HL) as Hp.
  replace (active_subdomains L) with (probed env (all_subdomains L)).2
    by (by rewrite <-Hp).
  apply probed_active_dom.
Qed.

(** The text reports, read back line by line. *)
Lemma main_txt_lines (env : environment) (args : arguments) (w w' : world)
    (L : main_locals) :
  main_post env args w L w' →
  ∃ full active,
    w_files w' !! (base L +:+ ".txt") = Some (TextFile full) ∧
    w_files w' !! (base_act L +:+ ".txt") = Some (TextFile active) ∧
    PyStr.splitlines full = sorted (elements (all_subdomains L)) ∧
    PyStr.splitlines active = sorted (elements (dom (active_subdomains L))).
Proof.
  intros HL. destruct (main_files _ _ _ _ _ HL) as (_ & _ & Hfull & Hact).
  eexists _, _. split; [exact Hfull|]. split; [exact Hact|].
  split; apply splitlines_write_lines, Forall_forall; intros c Hc;
    unfold sorted in Hc; rewrite merge_sort_Permutation, elem_of_elements in Hc.
  - by eapply candidates_no_break.
  - eapply candidates_no_break; [exact HL|]. by eapply active_dom_candidates.
Qed.

(** ** Runs used as examples *)

Lemma text_at_Some (w : world) (path text : string) :
  text_at w path = Some text → w_files w !! path = Some (TextFile text).
Proof.
  unfold text_at. destruct (w_files w !! path) as [[| |]|]; try done.
  by intros [= ->].
Qed.

(** A run whose outcome passes a test on its variables returned. *)
Lemma on_locals_returns (P : main_locals → bool) (r : outcome main_locals * world) :
  on_locals P r = true → ∃ L w', r = (Ret L, w') ∧ P L = true.
Proof.
  destruct r as [[L|e] w']; unfold on_locals; cbn [fst]; [|done].
  intros HP. by exists L, w'.
Qed.

(** ** The claims about a run *)

Lemma args_testfire_accepted : accepted_domain (arg_domain args_testfire).
Proof. by left. Qed.

(** C1. Whatever the tools print and whatever the target domain is, when
    the run returns, every candidate of the final set [all_subdomains] (the
    set after the filter of line 121) ends with the domain. *)
Theorem C1_suffix_invariant (env : environment) (args : arguments) (w w' : world)
    (L : main_locals) :
  main env args w = (Ret L, w') →
  ∀ c, c ∈ all_subdomains L → ends_with c (arg_domain args).
Proof.
  intros [_ HL]%main_returned c.
  rewrite (post_clean _ _ _ _ _ HL). unfold clean.
  rewrite elem_of_filter, endswith_Is_true. by intros [? _].
Qed.

Lemma C1_suffix_invariant_witness :
  ∃ L w',
    main (env_subfinder 200) args_testfire world0 = (Ret L, w') ∧
    "www.testfire.net" ∈ all_subdomains L ∧
    ends_with "www.testfire.net" (arg_domain args_testfire).
Proof.
  destruct (on_locals_returns
              (λ L, bool_decide ("www.testfire.net" ∈ all_subdomains L))
              (main (env_subfinder 200) args_testfire world0))
    as (L & w' & Hmain & Hin); [vm_compute; reflexivity|].
  apply bool_decide_eq_true in Hin.
  exists L, w'. split; [exact Hmain|]. split; [exact Hin|].
  exact (C1_suffix_invariant _ _ _ _ _ Hmain _ Hin).
Defined.

(** C2. Whatever the order in which the futures complete (hence whatever
    the width of the pool), probing a candidate set gives a full map whose
    keys are exactly the candidates, with as many records as candidates,
    after one resolver task per candidate; and when a run returns, the keys
    of the map written to the full JSON report are exactly the lines of the
    text written to the full TXT report, as [splitlines] reads them, and no
    line is repeated. *)
Theorem C2_one_record_per_candidate (env : environment) (args : arguments)
    (S : gset string) (w : world) :
  (∃ data act w' evs,
     probe_all env S w = (Ret (data, act), w') ∧
     dom data = S ∧ size data = size S ∧
     w_net w' = w_net w ++ evs ∧ dns_queries evs ≡ₚ elements S) ∧
  (∀ L w',
     main env args w = (Ret L, w') →
     dom (subdomain_data L) = all_subdomains L ∧
     size (subdomain_data L) = total (stats L) ∧
     ∃ text,
       w_files w' !! (base L +:+ ".json")
         = Some (JsonFile (JsonReport (metadata L) (subdomain_data L))) ∧
       w_files w' !! (base L +:+ ".txt") = Some (TextFile text) ∧
       NoDup (PyStr.splitlines text) ∧
       list_to_set (PyStr.splitlines text) = dom (subdomain_data L)).
Proof.
  split.
  - exists (probed env S).1, (probed env S).2,
      (add_net (probed_events env S) w), (probed_events env S).
    split; [apply probe_all_eq_pair|].
    split; [by apply probed_data_dom|].
    split; [by rewrite <-size_dom, probed_data_dom|].
    split; [done|].
    unfold probed_events. rewrite dns_queries_bind. apply as_completed_once.
  - intros L w' [_ HL]%main_returned.
    assert (Hdom : dom (subdomain_data L) = all_subdomains L).
    { pose proof (post_probe _ _ _ _ _ HL) as Hp.
      replace (subdomain_data L) with (probed env (all_subdomains L)).1
        by (by rewrite <-Hp).
      by apply probed_data_dom. }
    split; [done|].
    split; [by rewrite (post_stats _ _ _ _ _ HL), <-size_dom, Hdom|].
    destruct (main_files _ _ _ _ _ HL) as (Hjson & _ & _ & _).
    destruct (main_txt_lines _ _ _ _ _ HL) as (full & _ & Htxt & _ & Hlines & _).
    exists full. split; [exact Hjson|]. split; [exact Htxt|].
    rewrite Hlines. unfold sorted. split.
    + rewrite merge_sort_Permutation. apply NoDup_elements.
    + rewrite Hdom. apply set_eq. intros c.
      by rewrite elem_of_list_to_set, merge_sort_Permutation, elem_of_elements.
Qed.

Lemma C2_one_record_per_candidate_witness :
  ∃ L w' text,
    main (env_subfinder 200) args_testfire world0 = (Ret L, w') ∧
    dom (subdomain_data L) = all_subdomains L ∧
    w_files w' !! (base L +:+ ".txt") = Some (TextFile text) ∧
    list_to_set (PyStr.splitlines text) = dom (subdomain_data L).
Proof.
  destruct (on_locals_returns (λ _, true)
              (main (env_subfinder 200) args_testfire world0))
    as (L & w' & Hmain & _); [vm_compute; reflexivity|].
  destruct (C2_one_record_per_candidate (env_subfinder 200) args_testfire ∅ world0)
    as [_ Hrun].
  destruct (Hrun L w' Hmain) as (Hdom & _ & text & _ & Htxt & _ & Hlines).
  exists L, w', text. split; [exact Hmain|]. split; [exact Hdom|].
  split; [exact Htxt|exact Hlines].
Defined.

(** C3. When a run returns, the keys of the active map are candidates of
    the final set, and every record of the active map is the record of the
    full map for that candidate and has a status that is present and below
    600. *)
Theorem C3_active_subset (env : environment) (args : arguments) (w w' : world)
    (L : main_locals) :
  main env args w = (Ret L, w') →
  dom (active_subdomains L) ⊆ all_subdomains L ∧
  ∀ c r, active_subdomains L !! c = Some r →
         subdomain_data L !! c = Some r ∧
         ∃ st, http_status r = Some st ∧ st < 600.
Proof.
  intros [_ HL]%main_returned.
  pose proof (post_probe _ _ _ _ _ HL) as Hp.
  assert (Hd : subdomain_data L = (probed env (all_subdomains L)).1) by by rewrite <-Hp.
  assert (Ha : active_subdomains L = (probed env (all_subdomains L)).2) by by rewrite <-Hp.
  split; [rewrite Ha; by apply probed_active_dom|].
  intros c r. rewrite Ha, Hd, probed_active_lookup, probed_data_lookup by done.
  case_decide as Hc; [|done]. destruct Hc as [Hin Hprom]. intros [= <-].
  rewrite decide_True by done. split; [done|].
  destruct (promoted_record env c) as (a & cn & st & -> & _ & _ & Hlt);
    [by apply Is_true_true|].
  by exists st.
Qed.

Lemma C3_active_subset_witness :
  ∃ L w',
    main (env_subfinder 200) args_testfire world0 = (Ret L, w') ∧
    is_Some (active_subdomains L !! "www.testfire.net") ∧
    dom (active_subdomains L) ⊆ all_subdomains L ∧
    ∀ c r, active_subdomains L !! c = Some r →
           subdomain_data L !! c = Some r ∧
           ∃ st, http_status r = Some st ∧ st < 600.
Proof.
  destruct (on_locals_returns
              (λ L, bool_decide (is_Some (active_subdomains L !! "www.testfire.net")))
              (main (env_subfinder 200) args_testfire world0))
    as (L & w' & Hmain & Hin); [vm_compute; reflexivity|].
  apply bool_decide_eq_true in Hin.
  exists L, w'. split; [exact Hmain|]. split; [exact Hin|].
  exact (C3_active_subset _ _ _ _ _ Hmain).
Defined.

(** C4. For every candidate whose resolution succeeded (returned an
    address, which is a non-empty string) and whose HTTP check returned a
    status code (the code of a status line, which is 100 at least) below
    600, the record of the candidate is in the full map and the same record
    is in the active map. *)
Theorem C4_promotion (env : environment) (S : gset string) (w : world)
    (c a : string) (st : Z) :
  c ∈ S →
  gethostbyname env c = Ret a →
  PyStr.truthy a →
  requests_get env ("http://" +:+ c) 5 = Ret st →
  100 ≤ st →
  st < 600 →
  ∃ data act w' r,
    probe_all env S w = (Ret (data, act), w') ∧
    data !! c = Some r ∧ act !! c = Some r ∧
    ip r = Some a ∧ http_status r = Some st.
Proof.
  intros Hin Hdns Ha Hhttp Hcode Hlt.
  exists (probed env S).1, (probed env S).2, (add_net (probed_events env S) w),
    (record_of env c).
  split; [apply probe_all_eq_pair|].
  rewrite probed_data_lookup, probed_active_lookup by done.
  assert (Hrec : record_of env c
                 = ProbeRecord (Some a) (dns_answer env c).2 (Some st)).
  { unfold record_of, dns_answer, http_answer. rewrite Hdns, Hhttp. cbn.
    by apply Is_true_true in Ha as ->. }
  assert (Hprom : promoted env c = true).
  { unfold promoted, dns_answer, http_answer, responded. rewrite Hdns, Hhttp. cbn.
    apply Is_true_true in Ha as ->. cbn.
    rewrite !bool_decide_eq_true_2; [done|lia..]. }
  rewrite decide_True by done.
  rewrite decide_True by (split; [done|by apply Is_true_true]).
  rewrite Hrec. done.
Qed.

Lemma C4_promotion_witness :
  "www.testfire.net" ∈ ({["www.testfire.net"; "eviltestfire.net"]} : gset string) ∧
  gethostbyname (env_subfinder 404) "www.testfire.net" = Ret "65.61.137.117" ∧
  PyStr.truthy "65.61.137.117" ∧
  requests_get (env_subfinder 404) ("http://" +:+ "www.testfire.net") 5 = Ret 404 ∧
  100 ≤ 404 ∧ 404 < 600 ∧
  ∃ data act w' r,
    probe_all (env_subfinder 404) {["www.testfire.net"; "eviltestfire.net"]} world0
      = (Ret (data, act), w') ∧
    data !! "www.testfire.net" = Some r ∧ act !! "www.testfire.net" = Some r ∧
    ip r = Some "65.61.137.117" ∧ http_status r = Some 404.
Proof.
  assert (Hin : "www.testfire.net"
                ∈ ({["www.testfire.net"; "eviltestfire.net"]} : gset string))
    by (apply elem_of_union_l, elem_of_singleton; reflexivity).
  split; [exact Hin|].
  split; [reflexivity|]. split; [exact I|]. split; [reflexivity|].
  split; [lia|]. split; [lia|].
  apply (C4_promotion (env_subfinder 404) _ world0 "www.testfire.net"
           "65.61.137.117" 404 Hin eq_refl I eq_refl);
    lia.
Defined.

(** C5. For every candidate of the probed set: when resolution raises,
    the full map holds the record with ip, cname and status all absent,
    no HTTP request for the candidate is among the requests made by the
    probing phase, and the active map has no entry for it; when resolution
    returns an address (a non-empty string) and the canonical-name lookup
    raises, the record keeps the address with cname absent, next to what
    the HTTP check returned. *)
Theorem C5_dns_failure (env : environment) (S : gset string) (w : world)
    (c : string) :
  c ∈ S →
  ∃ data act w' evs,
    probe_all env S w = (Ret (data, act), w') ∧
    w_net w' = w_net w ++ evs ∧
    (∀ e, gethostbyname env c = Raise e →
          data !! c = Some (ProbeRecord None None None) ∧
          (HttpGet ("http://" +:+ c) ∉ evs) ∧
          act !! c = None) ∧
    (∀ a e, gethostbyname env c = Ret a → PyStr.truthy a →
            gethostbyname_ex env c = Raise e →
            data !! c = Some (ProbeRecord (Some a) None (http_answer env c))).
Proof.
  intros Hin.
  exists (probed env S).1, (probed env S).2, (add_net (probed_events env S) w),
    (probed_events env S).
  split; [apply probe_all_eq_pair|].
  split; [done|].
  rewrite probed_data_lookup, probed_active_lookup by done.
  rewrite decide_True by done. split.
  - intros e Hdns.
    assert (Hans : dns_answer env c = (None, None))
      by (unfold dns_answer; by rewrite Hdns).
    split; [unfold record_of; by rewrite Hans|]. split.
    + unfold probed_events. rewrite list_elem_of_bind.
      intros (sub & Hev & _). apply http_get_probe_events in Hev as [_ Hip].
      rewrite Hans in Hip. discriminate Hip.
    + rewrite decide_False; [done|]. intros [_ Hp]. unfold promoted in Hp.
      rewrite Hans in Hp. exact Hp.
  - intros a e Hdns Ha Hex.
    unfold record_of, dns_answer. rewrite Hdns, Hex. cbn.
    by apply Is_true_true in Ha as ->.
Qed.

Lemma C5_dns_failure_witness :
  "eviltestfire.net" ∈ ({["www.testfire.net"; "eviltestfire.net"]} : gset string) ∧
  "www.testfire.net" ∈ ({["www.testfire.net"; "eviltestfire.net"]} : gset string) ∧
  (∃ data act w' evs,
     probe_all (env_subfinder 200) {["www.testfire.net"; "eviltestfire.net"]} world0
       = (Ret (data, act), w') ∧
     w_net w' = w_net world0 ++ evs ∧
     data !! "eviltestfire.net" = Some (ProbeRecord None None None) ∧
     (HttpGet ("http://" +:+ "eviltestfire.net") ∉ evs) ∧
     act !! "eviltestfire.net" = None) ∧
  (∃ data act w' status,
     probe_all (env_subfinder 200) {["www.testfire.net"; "eviltestfire.net"]} world0
       = (Ret (data, act), w') ∧
     data !! "www.testfire.net"
       = Some (ProbeRecord (Some "65.61.137.117") None status)).
Proof.
  assert (Hevil : "eviltestfire.net"
                  ∈ ({["www.testfire.net"; "eviltestfire.net"]} : gset string))
    by (apply elem_of_union_r, elem_of_singleton; reflexivity).
  assert (Hwww : "www.testfire.net"
                 ∈ ({["www.testfire.net"; "eviltestfire.net"]} : gset string))
    by (apply elem_of_union_l, elem_of_singleton; reflexivity).
  split; [exact Hevil|]. split; [exact Hwww|].
  split.
  - destruct (C5_dns_failure (env_subfinder 200) _ world0 "eviltestfire.net" Hevil)
      as (data & act & w' & evs & Hrun & Hnet & Hfail & _).
    exists data, act, w', evs. split; [exact Hrun|]. split; [exact Hnet|].
    exact (Hfail _ eq_refl).
  - destruct (C5_dns_failure (env_subfinder 200) _ world0 "www.testfire.net" Hwww)
      as (data & act & w' & evs & Hrun & _ & _ & Hkeep).
    pose proof (Hkeep "65.61.137.117" _ eq_refl I eq_refl) as Hrec.
    exists data, act, w', (http_answer (env_subfinder 200) "www.testfire.net").
    split; [exact Hrun|exact Hrec].
Defined.

(** C9. When the file system lets the run through (the output directory
    can be made and the four reports can be opened and written), the run
    returns. Its final candidate set is empty exactly when no tool
    contributes a line that ends with the domain (a tool whose self-test
    raises contributes nothing). When the set is empty: the statistics have
    total 0 and activos 0, both record maps are empty, and the four report
    files, at four different paths, hold the metadata with empty record
    maps (JSON) and no line at all (TXT). *)
Theorem C9_empty_run (env : environment) (args : arguments) (w : world) :
  fs_ok env args w →
  ∃ L w',
    main env args w = (Ret L, w') ∧
    (all_subdomains L = ∅ ↔
     ∀ tool x, tool ∈ tools (arg_domain args) →
               x ∈ tool_found env (arg_domain args) tool →
               ¬ ends_with x (arg_domain args)) ∧
    (all_subdomains L = ∅ →
     total (stats L) = 0%nat ∧ activos (stats L) = 0%nat ∧
     estadisticas (metadata L) = stats L ∧
     subdomain_data L = ∅ ∧ active_subdomains L = ∅ ∧
     NoDup [base L +:+ ".json"; base_act L +:+ ".json";
            base L +:+ ".txt"; base_act L +:+ ".txt"] ∧
     w_files w' !! (base L +:+ ".json") = Some (JsonFile (JsonReport (metadata L) ∅)) ∧
     w_files w' !! (base_act L +:+ ".json") = Some (JsonFile (JsonReport (metadata L) ∅)) ∧
     w_files w' !! (base L +:+ ".txt") = Some (TextFile "") ∧
     w_files w' !! (base_act L +:+ ".txt") = Some (TextFile "")).
Proof.
  intros Hfs.
  destruct (main_returns env args w Hfs) as (L & w' & Hmain & HL).
  exists L, w'. split; [done|]. split.
  { split.
    - intros Hempty tool x Htool Hx Hend.
      assert (Hin : x ∈ all_subdomains L).
      { apply (elem_of_all_subdomains _ _ _ _ _ _ HL). split; [|done].
        apply (elem_of_aggregated _ _ _ _ _ _ HL). by exists tool. }
      rewrite Hempty in Hin. by apply not_elem_of_empty in Hin.
    - intros Hnone. apply set_eq. intros x. split.
      + intros [Hagg Hend]%(elem_of_all_subdomains _ _ _ _ _ _ HL).
        apply (elem_of_aggregated _ _ _ _ _ _ HL) in Hagg as (tool & Htool & Hx).
        by destruct (Hnone tool x).
      + intros Hin. by apply not_elem_of_empty in Hin. }
  intros Hempty.
  assert (Hmaps : subdomain_data L = ∅ ∧ active_subdomains L = ∅).
  { pose proof (post_probe _ _ _ _ _ HL) as Hp. unfold probed in Hp.
    rewrite Hempty, elements_empty in Hp.
    assert (Hnil : as_completed env [] = [])
      by apply Permutation_nil_r, as_completed_once.
    rewrite Hnil in Hp. cbn [foldl] in Hp. by injection Hp. }
  destruct Hmaps as [Hdata Hact].
  assert (Hstats : total (stats L) = 0%nat ∧ activos (stats L) = 0%nat).
  { rewrite (post_stats _ _ _ _ _ HL), Hact, Hempty. cbn [total activos].
    split; [apply size_empty|apply map_size_empty]. }
  destruct Hstats as [Htotal Hactivos].
  pose proof (report_files_NoDup _ _ _ _ _ HL) as Hnd.
  destruct (main_files _ _ _ _ _ HL) as (Hf1 & Hf2 & Hf3 & Hf4).
  rewrite Hdata in Hf1. rewrite Hact in Hf2.
  rewrite Hempty, elements_empty in Hf3.
  rewrite Hact, dom_empty_L, elements_empty in Hf4.
  split; [exact Htotal|]. split; [exact Hactivos|].
  split; [by rewrite (post_metadata _ _ _ _ _ HL)|].
  split; [exact Hdata|]. split; [exact Hact|]. split; [exact Hnd|].
  split; [exact Hf1|]. split; [exact Hf2|]. split; [exact Hf3|exact Hf4].
Qed.

Lemma C9_empty_run_witness :
  fs_ok env_no_tools args_testfire world0 ∧
  ∃ L w',
    main env_no_tools args_testfire world0 = (Ret L, w') ∧
    all_subdomains L = ∅ ∧
    total (stats L) = 0%nat ∧ activos (stats L) = 0%nat ∧
    estadisticas (metadata L) = stats L ∧
    subdomain_data L = ∅ ∧ active_subdomains L = ∅ ∧
    NoDup [base L +:+ ".json"; base_act L +:+ ".json";
           base L +:+ ".txt"; base_act L +:+ ".txt"] ∧
    w_files w' !! (base L +:+ ".json") = Some (JsonFile (JsonReport (metadata L) ∅)) ∧
    w_files w' !! (base_act L +:+ ".json") = Some (JsonFile (JsonReport (metadata L) ∅)) ∧
    w_files w' !! (base L +:+ ".txt") = Some (TextFile "") ∧
    w_files w' !! (base_act L +:+ ".txt") = Some (TextFile "").
Proof.
  assert (Hfs : fs_ok env_no_tools args_testfire world0)
    by (apply (bool_decide_unpack _); vm_compute; exact I).
  split; [exact Hfs|].
  destruct (C9_empty_run env_no_tools args_testfire world0 Hfs)
    as (L & w' & Hmain & Hiff & Hempty).
  exists L, w'. split; [exact Hmain|].
  assert (Hnone : all_subdomains L = ∅).
  { apply Hiff. intros tool x _ Hx.
    change (x ∈ (∅ : gset string)) in Hx.
    destruct (not_elem_of_empty x Hx). }
  split; [exact Hnone|]. exact (Hempty Hnone).
Defined.

(** C10. The filter of line 121 is a suffix test on characters: when the
    run returns, every aggregated line that ends with the target domain is
    in the final candidate set and has a record in the full map, whatever
    precedes the domain in the line. With the domain "testfire.net" this
    holds for the line "eviltestfire.net", where no dot precedes the
    domain. *)
Theorem C10_suffix_not_label (env : environment) (args : arguments) (w w' : world)
    (L : main_locals) :
  main env args w = (Ret L, w') →
  ∀ line, line ∈ aggregated L → ends_with line (arg_domain args) →
          line ∈ all_subdomains L ∧ is_Some (subdomain_data L !! line).
Proof.
  intros [_ HL]%main_returned line Hagg Hend.
  assert (Hin : line ∈ all_subdomains L).
  { rewrite (post_clean _ _ _ _ _ HL). unfold clean.
    apply elem_of_filter. split; [by apply endswith_Is_true|done]. }
  split; [done|].
  pose proof (post_probe _ _ _ _ _ HL) as Hp.
  replace (subdomain_data L) with (probed env (all_subdomains L)).1
    by (by rewrite <-Hp).
  rewrite probed_data_lookup, decide_True by done. by eexists.
Qed.

Lemma C10_suffix_not_label_witness :
  ends_with "eviltestfire.net" "testfire.net" ∧
  ¬ ends_with "eviltestfire.net" ".testfire.net" ∧
  ∃ L w',
    main (env_subfinder 200) args_testfire world0 = (Ret L, w') ∧
    "eviltestfire.net" ∈ aggregated L ∧
    "eviltestfire.net" ∈ all_subdomains L ∧
    is_Some (subdomain_data L !! "eviltestfire.net").
Proof.
  assert (Hend : ends_with "eviltestfire.net" "testfire.net") by (by exists "evil").
  split; [exact Hend|].
  split; [intros Hdot%endswith_spec; discriminate Hdot|].
  destruct (on_locals_returns
              (λ L, bool_decide ("eviltestfire.net" ∈ aggregated L))
              (main (env_subfinder 200) args_testfire world0))
    as (L & w' & Hmain & Hagg); [vm_compute; reflexivity|].
  apply bool_decide_eq_true in Hagg.
  exists L, w'. split; [exact Hmain|]. split; [exact Hagg|].
  exact (C10_suffix_not_label _ _ _ _ _ Hmain _ Hagg Hend).
Defined.


(** * Further properties of the code *)

(** ** Splitting and joining labels *)

Lemma split_nonempty (s : string) (sep : ascii) : PyStr.split s sep ≠ [].
Proof.
  destruct s as [|c s]; [done|]. cbn [PyStr.split].
  case_decide; [done|]. by destruct (PyStr.split s sep).
Qed.

Lemma join_cons_char (sep : string) (c : ascii) (p : string) (ps : list string) :
  PyStr.join sep (String c p :: ps) = String c (PyStr.join sep (p :: ps)).
Proof. unfold PyStr.join. by destruct ps. Qed.

Lemma join_cons (sep x : string) (l : list string) :
  l ≠ [] → PyStr.join sep (x :: l) = x +:+ sep +:+ PyStr.join sep l.
Proof. unfold PyStr.join. by destruct l. Qed.

(** Joining the pieces of a split gives the string back. *)
Lemma join_split (s : string) (sep : ascii) :
  PyStr.join (String sep "") (PyStr.split s sep) = s.
Proof.
  induction s as [|c s IH]; [done|]. cbn [PyStr.split].
  case_decide as Hc.
  - rewrite join_cons by apply split_nonempty. rewrite IH. by subst.
  - destruct (PyStr.split s sep) as [|p ps] eqn:Hs;
      [by destruct (split_nonempty s sep)|].
    by rewrite join_cons_char, IH.
Qed.

(** A piece of a split contains no separator: splitting it gives itself. *)
Lemma split_pieces (s : string) (sep : ascii) :
  Forall (λ p, PyStr.split p sep = [p]) (PyStr.split s sep).
Proof.
  induction s as [|c s IH]; [by repeat constructor|]. cbn [PyStr.split].
  case_decide as Hc; [by constructor|].
  destruct (PyStr.split s sep) as [|p ps] eqn:Hs;
    [by destruct (split_nonempty s sep)|].
  apply Forall_cons in IH as [Hp Hps]. constructor; [|done].
  cbn [PyStr.split]. rewrite decide_False by done. by rewrite Hp.
Qed.

Lemma split_piece_app (x rest : string) (sep : ascii) :
  PyStr.split x sep = [x] →
  PyStr.split (x +:+ String sep "" +:+ rest) sep = x :: PyStr.split rest sep.
Proof.
  induction x as [|c x IH]; intros Hx.
  - rewrite app_empty_l, app_cons, app_empty_l. cbn [PyStr.split].
    by rewrite decide_True.
  - cbn [PyStr.split] in Hx. rewrite app_cons. cbn [PyStr.split].
    case_decide as Hc; [done|].
    destruct (PyStr.split x sep) as [|p ps] eqn:Hs;
      [by destruct (split_nonempty x sep)|].
    simplify_eq. by rewrite IH.
Qed.

(** Splitting a join of separator-free pieces gives the pieces back. *)
Lemma split_join (l : list string) (sep : ascii) :
  l ≠ [] → Forall (λ p, PyStr.split p sep = [p]) l →
  PyStr.split (PyStr.join (String sep "") l) sep = l.
Proof.
  induction l as [|x l IH]; [done|]. intros _ [Hx Hl]%Forall_cons.
  destruct l as [|y l]; [done|].
  rewrite join_cons by done. rewrite split_piece_app by done.
  by rewrite IH.
Qed.

Lemma join_drop_suffix (sep : string) (l : list string) (k : nat) :
  (k < length l)%nat →
  PyStr.join sep l = PyStr.join sep (drop k l) ∨
  ∃ p, PyStr.join sep l = p +:+ sep +:+ PyStr.join sep (drop k l).
Proof.
  revert l. induction k as [|k IH]; intros l Hk; [left; by rewrite drop_0|].
  destruct l as [|x l]; [cbn in Hk; lia|]. cbn [drop]. cbn in Hk.
  assert (Hl : l ≠ []) by (destruct l; [cbn in Hk; lia|done]).
  rewrite join_cons by done. right.
  destruct (IH l) as [->|[p ->]]; [lia| |].
  - by exists x.
  - exists (x +:+ sep +:+ p). by rewrite !app_assoc_str.
Qed.

(** ** More on level extraction *)

(** What a name of the result is, for a positive number of kept labels. *)
Lemma extract_name (subdomains : gset string) (level : Z) (x : string) :
  0 < level + 2 →
  x ∈ extract_subdomains_level subdomains level →
  ∃ sub k, sub ∈ subdomains ∧
           (k + Z.to_nat (level + 2) = length (PyStr.split sub "."))%nat ∧
           x = PyStr.join "." (drop k (PyStr.split sub ".")) ∧
           PyStr.split x "." = drop k (PyStr.split sub ".").
Proof.
  intros Hpos (sub & Hin & Hlen & ->)%elem_of_extract_subdomains_level.
  set (parts := PyStr.split sub ".") in *.
  exists sub, (length parts - Z.to_nat (level + 2))%nat. fold parts.
  split; [done|]. split; [lia|].
  assert (Hslice : PyStr.slice_from (- (level + 2)) parts
                   = drop (length parts - Z.to_nat (level + 2)) parts).
  { unfold PyStr.slice_from. case_decide; [|lia]. f_equal. lia. }
  rewrite Hslice. split; [done|].
  apply split_join.
  - intros Hnil. apply (f_equal length) in Hnil.
    rewrite length_drop in Hnil. cbn in Hnil. lia.
  - apply Forall_drop, split_pieces.
Qed.

(** Every name of a level group has exactly level+2 labels. *)
Theorem level_names_label_count (subdomains : gset string) (level : Z) (x : string) :
  0 < level + 2 →
  x ∈ extract_subdomains_level subdomains level →
  Z.of_nat (length (PyStr.split x ".")) = level + 2.
Proof.
  intros Hpos Hx.
  destruct (extract_name _ _ _ Hpos Hx) as (sub & k & _ & Hlen & _ & ->).
  rewrite length_drop. lia.
Qed.

Lemma level_names_label_count_witness :
  0 < 3 + 2 ∧
  "a.b.c.testfire.net"
    ∈ extract_subdomains_level {["x.a.b.c.testfire.net"; "www.testfire.net"]} 3 ∧
  Z.of_nat (length (PyStr.split "a.b.c.testfire.net" ".")) = 3 + 2.
Proof.
  assert (Hin : "a.b.c.testfire.net"
    ∈ extract_subdomains_level {["x.a.b.c.testfire.net"; "www.testfire.net"]} 3)
    by (apply (bool_decide_unpack _); by vm_compute).
  split; [lia|]. split; [exact Hin|].
  apply (level_names_label_count _ 3 _ ltac:(lia) Hin).
Defined.

(** Every name of a level group is a candidate, or what follows a dot in a
    candidate: level groups are cut at label boundaries. *)
Theorem level_names_are_label_suffixes (subdomains : gset string) (level : Z)
    (x : string) :
  0 < level + 2 →
  x ∈ extract_subdomains_level subdomains level →
  ∃ sub, sub ∈ subdomains ∧ (sub = x ∨ ∃ p, sub = p +:+ "." +:+ x).
Proof.
  intros Hpos Hx.
  destruct (extract_name _ _ _ Hpos Hx) as (sub & k & Hin & Hlen & -> & _).
  exists sub. split; [done|].
  destruct (join_drop_suffix "." (PyStr.split sub ".") k) as [Heq|[p Heq]];
    [lia|..]; rewrite (join_split sub ".") in Heq.
  - by left.
  - right. by exists p.
Qed.

Lemma level_names_are_label_suffixes_witness :
  0 < 2 + 2 ∧
  "b.c.testfire.net"
    ∈ extract_subdomains_level {["a.b.c.testfire.net"; "www.testfire.net"]} 2 ∧
  ∃ sub, sub ∈ ({["a.b.c.testfire.net"; "www.testfire.net"]} : gset string) ∧
         (sub = "b.c.testfire.net" ∨ ∃ p, sub = p +:+ "." +:+ "b.c.testfire.net").
Proof.
  assert (Hin : "b.c.testfire.net"
    ∈ extract_subdomains_level {["a.b.c.testfire.net"; "www.testfire.net"]} 2)
    by (apply (bool_decide_unpack _); by vm_compute).
  split; [lia|]. split; [exact Hin|].
  apply (level_names_are_label_suffixes _ 2 _ ltac:(lia) Hin).
Defined.

(** Extracting a level from a level group of the same level changes
    nothing. *)
Theorem extract_subdomains_level_idempotent (subdomains : gset string) (level : Z) :
  0 < level + 2 →
  extract_subdomains_level (extract_subdomains_level subdomains level) level
  = extract_subdomains_level subdomains level.
Proof.
  intros Hpos. apply set_eq. intros x.
  assert (Hself : ∀ y, y ∈ extract_subdomains_level subdomains level →
    level + 2 ≤ Z.of_nat (length (PyStr.split y ".")) ∧
    PyStr.join "." (PyStr.slice_from (- (level + 2)) (PyStr.split y ".")) = y).
  { intros y Hy.
    assert (Hlen : Z.of_nat (length (PyStr.split y ".")) = level + 2).
    { destruct (extract_name _ _ _ Hpos Hy) as (sub & k & _ & Hk & _ & ->).
      rewrite length_drop. lia. }
    split; [lia|]. unfold PyStr.slice_from. case_decide; [|lia].
    replace (Z.to_nat _) with 0%nat by lia. rewrite drop_0. apply join_split. }
  rewrite (elem_of_extract_subdomains_level (extract_subdomains_level _ _)).
  split.
  - intros (y & Hy & _ & ->). by rewrite (proj2 (Hself y Hy)).
  - intros Hx. exists x. destruct (Hself x Hx) as [Hlen Hjoin]. by rewrite Hjoin.
Qed.

Lemma extract_subdomains_level_idempotent_witness :
  0 < 2 + 2 ∧
  extract_subdomains_level
    (extract_subdomains_level {["a.b.c.testfire.net"; "www.testfire.net"]} 2) 2
  = extract_subdomains_level {["a.b.c.testfire.net"; "www.testfire.net"]} 2.
Proof.
  split; [lia|].
  apply (extract_subdomains_level_idempotent _ 2). lia.
Defined.

(** With level+2 not positive nothing is discarded: the length test always
    passes, and the slice drops the first -(level+2) labels of each
    candidate (none for level -2, where the start index is -0). *)
Theorem extract_subdomains_level_nonpositive (subdomains : gset string)
    (level : Z) (x : string) :
  level + 2 ≤ 0 →
  x ∈ extract_subdomains_level subdomains level ↔
  ∃ sub, sub ∈ subdomains ∧
         x = PyStr.join "." (drop (Z.to_nat (- (level + 2))) (labels sub)).
Proof.
  intros Hneg. rewrite elem_of_extract_subdomains_level. unfold labels.
  assert (Hslice : ∀ parts : list string,
    PyStr.slice_from (- (level + 2)) parts = drop (Z.to_nat (- (level + 2))) parts).
  { intros parts. unfold PyStr.slice_from. case_decide; [lia|].
    destruct (decide (- (level + 2) ≤ Z.of_nat (length parts))).
    - f_equal. lia.
    - rewrite !drop_ge by lia. done. }
  split.
  - intros (sub & Hin & _ & ->). exists sub. by rewrite Hslice.
  - intros (sub & Hin & ->). exists sub. rewrite Hslice. split; [done|].
    split; [lia|done].
Qed.

Lemma extract_subdomains_level_nonpositive_witness :
  -2 + 2 ≤ 0 ∧
  ("www.testfire.net" ∈ extract_subdomains_level {["www.testfire.net"]} (-2) ↔
   ∃ sub, sub ∈ ({["www.testfire.net"]} : gset string) ∧
          "www.testfire.net"
          = PyStr.join "." (drop (Z.to_nat (- (-2 + 2))) (labels sub))).
Proof.
  split; [lia|].
  apply (extract_subdomains_level_nonpositive _ (-2)). lia.
Defined.

Lemma size_list_to_set_le (l : list string) :
  (size (list_to_set l : gset string) ≤ length l)%nat.
Proof.
  induction l as [|x l IH]; [by rewrite list_to_set_nil, size_empty|].
  rewrite list_to_set_cons, size_union_alt, size_singleton. cbn [length].
  assert (size (list_to_set l ∖ {[x]} : gset string) ≤ size (list_to_set l : gset string))%nat
    by (apply subseteq_size, subseteq_difference_l; reflexivity).
  lia.
Qed.

Lemma omap_length_le {A B} (f : A → option B) (l : list A) :
  (length (omap f l) ≤ length l)%nat.
Proof.
  induction l as [|x l IH]; [done|]. cbn [omap list_omap length].
  destruct (f x); cbn [length]; lia.
Qed.

Lemma extract_size_le (subdomains : gset string) (level : Z) :
  (size (extract_subdomains_level subdomains level) ≤ size subdomains)%nat.
Proof.
  unfold extract_subdomains_level, set_omap.
  etrans; [apply size_list_to_set_le|].
  etrans; [apply omap_length_le|]. done.
Qed.

(** ** The availability test *)

(** [check_tool] never raises. It answers true as soon as the self-test
    process completes, whatever its exit code, and leaves the world as it
    was; it answers false exactly when running the process raises, and then
    logs one warning that names the tool and the error. *)
Theorem check_tool_ignores_exit_code (env : environment) (cmd name : string)
    (w : world) :
  ∃ ok w',
    check_tool env cmd name w = (Ret ok, w') ∧
    (∀ result, subprocess_run env cmd 10 = Ret result → ok = true ∧ w' = w) ∧
    (∀ e, subprocess_run env cmd 10 = Raise e →
          ok = false ∧
          w_log w' = w_log w ++
            [LogRecord WARNING
               ("Herramienta no disponible: " +:+ name +:+ " (" +:+ exc_str e +:+ ")")]).
Proof.
  unfold check_tool. run_py.
  destruct (subprocess_run env cmd 10) as [result|e].
  - eexists _, _. split; [reflexivity|]. split; [done|]. intros ? [=].
  - eexists _, _. split; [reflexivity|]. split; [intros ? [=]|].
    intros ? [= <-]. split; [done|]. cbn.
    by rewrite decide_True by (destruct (w_level w); cbn; lia).
Qed.

(** ** The two probes *)

(** [dns_resolve] never raises. Without an address it returns no canonical
    name either, and the canonical-name request is made exactly when the
    address request returned; when both return, the canonical name is the
    host name of the second answer. *)
Theorem dns_resolve_requests (env : environment) (subdomain : string) (w : world) :
  ∃ ip cname w' evs,
    dns_resolve env subdomain w = (Ret (ip, cname), w') ∧
    w_net w' = w_net w ++ evs ∧
    (∀ e, gethostbyname env subdomain = Raise e →
          ip = None ∧ cname = None ∧ evs = [DnsQuery subdomain]) ∧
    (∀ a, gethostbyname env subdomain = Ret a →
          ip = Some a ∧ evs = [DnsQuery subdomain; DnsQueryEx subdomain] ∧
          (∀ h al il, gethostbyname_ex env subdomain = Ret (h, al, il) →
                      cname = Some h) ∧
          (∀ e, gethostbyname_ex env subdomain = Raise e → cname = None)).
Proof.
  exists (dns_answer env subdomain).1, (dns_answer env subdomain).2,
    (add_net (dns_events env subdomain) w), (dns_events env subdomain).
  split; [rewrite dns_resolve_eq; by destruct (dns_answer env subdomain)|].
  split; [done|]. unfold dns_answer, dns_events.
  destruct (gethostbyname env subdomain) as [a|e].
  - split; [intros ? [=]|]. intros ? [= <-]. split; [done|]. split; [done|].
    destruct (gethostbyname_ex env subdomain) as [[[h' al'] il']|e'].
    + split; [by intros h al il [= -> _ _]|intros ? [=]].
    + split; [intros ? ? ? [=]|done].
  - split; [|intros ? [=]]. by intros ? [= <-].
Qed.

(** [http_check] never raises and calls [requests.get] exactly once, with
    the URL [http://<subdomain>] and a timeout of 5: it returns the status
    code of the answer that the call returns, or nothing when the call
    raises. How many requests the library sends for the call, which follows
    redirects, is not part of the model. *)
Theorem http_check_one_call (env : environment) (subdomain : string) (w : world) :
  ∃ status w',
    http_check env subdomain w = (Ret status, w') ∧
    w_net w' = w_net w ++ [HttpGet ("http://" +:+ subdomain)] ∧
    (∀ code, requests_get env ("http://" +:+ subdomain) 5 = Ret code →
             status = Some code) ∧
    (∀ e, requests_get env ("http://" +:+ subdomain) 5 = Raise e → status = None).
Proof.
  exists (http_answer env subdomain), (add_net [HttpGet ("http://" +:+ subdomain)] w).
  split; [apply http_check_eq|]. split; [done|]. unfold http_answer.
  destruct (requests_get env ("http://" +:+ subdomain) 5); split;
    intros ? [=]; by subst.
Qed.

(** ** More on the probing phase *)

Lemma resolves_dns_answer (env : environment) (c : string) :
  truthy_str (dns_answer env c).1 = resolves env c.
Proof. unfold dns_answer, resolves. by destruct (gethostbyname env c). Qed.

Lemma http_gets_probe_events (env : environment) (c : string) :
  http_gets (probe_events env c)
  = if resolves env c then ["http://" +:+ c] else [].
Proof.
  unfold probe_events, http_gets. rewrite omap_app, resolves_dns_answer.
  assert (Hdns : omap (λ ev, match ev with HttpGet url => Some url | _ => None end)
                   (dns_events env c) = []).
  { unfold dns_events. by destruct (gethostbyname env c). }
  rewrite Hdns. by destruct (resolves env c).
Qed.

Lemma http_gets_bind (env : environment) (l : list string) :
  http_gets (l ≫= probe_events env)
  = (λ c, "http://" +:+ c) <$> filter (λ c, resolves env c) l.
Proof.
  induction l as [|c l IH]; [done|].
  rewrite bind_cons. unfold http_gets in *. rewrite omap_app, IH.
  fold (http_gets (probe_events env c)). rewrite http_gets_probe_events.
  rewrite filter_cons. destruct (resolves env c) eqn:Hc.
  - rewrite decide_True; [done|exact I].
  - rewrite decide_False; [done|intros []].
Qed.

(** A candidate is in the active map exactly when it was probed, its
    address request returned a non-empty address, and its HTTP request
    returned a status that is not 0 and is below 600; a negative status
    passes. *)
Theorem active_iff (env : environment) (S : gset string) (w : world) :
  ∃ data act w',
    probe_all env S w = (Ret (data, act), w') ∧
    ∀ c, is_Some (act !! c) ↔
         c ∈ S ∧
         ∃ a st, gethostbyname env c = Ret a ∧ PyStr.truthy a ∧
                 requests_get env ("http://" +:+ c) 5 = Ret st ∧
                 st ≠ 0 ∧ st < 600.
Proof.
  exists (probed env S).1, (probed env S).2, (add_net (probed_events env S) w).
  split; [apply probe_all_eq_pair|]. intros c.
  rewrite probed_active_lookup.
  assert (Hprom : promoted env c ↔
    ∃ a st, gethostbyname env c = Ret a ∧ PyStr.truthy a ∧
            requests_get env ("http://" +:+ c) 5 = Ret st ∧ st ≠ 0 ∧ st < 600).
  { unfold promoted, dns_answer, http_answer, responded, truthy_int.
    destruct (gethostbyname env c) as [a|e]; cbn [fst truthy_str].
    - destruct (requests_get env ("http://" +:+ c) 5) as [st|e].
      + rewrite !andb_True, !bool_decide_spec. split.
        * intros (Ha & Hnz & Hlt). by exists a, st.
        * by intros (a' & st' & [= <-] & Ha & [= <-] & Hnz & Hlt).
      + cbn [andb]. rewrite andb_false_r. split; [intros []|].
        by intros (? & ? & _ & _ & [=] & _).
    - split; [done|]. by intros (? & ? & [=] & _). }
  case_decide as Hc.
  - split; [|by eexists]. intros _. destruct Hc as [Hin Hp].
    split; [done|]. by apply Hprom.
  - split; [by intros []|]. intros [Hin Hp]. destruct Hc. split; [done|].
    by apply Hprom.
Qed.

(** The record of a probed candidate whose address request returned a
    non-empty address holds that address, the canonical name if that
    request returned, and the HTTP status if that request returned; when
    the HTTP request raises the candidate is not active. *)
Theorem resolved_record (env : environment) (S : gset string) (w : world)
    (c a : string) :
  c ∈ S →
  gethostbyname env c = Ret a →
  PyStr.truthy a →
  ∃ data act w',
    probe_all env S w = (Ret (data, act), w') ∧
    data !! c = Some (ProbeRecord
                        (Some a)
                        match gethostbyname_ex env c with
                        | Ret r => Some r.1.1
                        | Raise _ => None
                        end
                        match requests_get env ("http://" +:+ c) 5 with
                        | Ret st => Some st
                        | Raise _ => None
                        end) ∧
    (∀ e, requests_get env ("http://" +:+ c) 5 = Raise e → act !! c = None).
Proof.
  intros Hin Hdns Ha.
  exists (probed env S).1, (probed env S).2, (add_net (probed_events env S) w).
  split; [apply probe_all_eq_pair|].
  rewrite probed_data_lookup, probed_active_lookup, decide_True by done.
  split.
  - unfold record_of, dns_answer, http_answer. rewrite Hdns. cbn.
    by apply Is_true_true in Ha as ->.
  - intros e Hhttp. rewrite decide_False; [done|]. intros [_ Hp].
    unfold promoted, http_answer, responded in Hp. rewrite Hhttp in Hp.
    cbn [truthy_int andb] in Hp. by rewrite andb_false_r in Hp.
Qed.

Lemma resolved_record_witness :
  "www.testfire.net" ∈ ({["www.testfire.net"; "eviltestfire.net"]} : gset string) ∧
  gethostbyname (env_subfinder 404) "www.testfire.net" = Ret "65.61.137.117" ∧
  PyStr.truthy "65.61.137.117" ∧
  ∃ data act w',
    probe_all (env_subfinder 404) {["www.testfire.net"; "eviltestfire.net"]} world0
      = (Ret (data, act), w') ∧
    data !! "www.testfire.net"
      = Some (ProbeRecord (Some "65.61.137.117") None (Some 404)).
Proof.
  assert (Hin : "www.testfire.net"
                ∈ ({["www.testfire.net"; "eviltestfire.net"]} : gset string))
    by (apply elem_of_union_l, elem_of_singleton; reflexivity).
  split; [exact Hin|]. split; [reflexivity|]. split; [exact I|].
  destruct (resolved_record (env_subfinder 404) _ world0 "www.testfire.net"
              "65.61.137.117" Hin eq_refl I)
    as (data & act & w' & Hrun & Hrec & _).
  exists data, act, w'. split; [exact Hrun|exact Hrec].
Defined.

(** The probing phase calls [requests.get] once for each candidate whose
    address request returned a non-empty address, with the URL
    [http://<candidate>], and makes no other call to [requests.get]. *)
Theorem one_get_call_per_resolved (env : environment) (S : gset string)
    (w : world) :
  ∃ r w' evs,
    probe_all env S w = (Ret r, w') ∧
    w_net w' = w_net w ++ evs ∧
    http_gets evs
    ≡ₚ (λ c, "http://" +:+ c) <$> filter (λ c, resolves env c) (elements S).
Proof.
  exists (probed env S), (add_net (probed_events env S) w), (probed_events env S).
  split; [apply probe_all_eq|]. split; [done|].
  unfold probed_events. rewrite http_gets_bind.
  by rewrite (as_completed_once env (elements S)).
Qed.

(** ** More on a run *)


Lemma contains_of_ends_with (s d : string) :
  ends_with s d → PyStr.contains s d = true.
Proof.
  intros [p ->]. induction p as [|c p IH].
  - rewrite app_empty_l.
    assert (Hself : PyStr.startswith d d = true).
    { induction d as [|c d IH]; [done|]. cbn [PyStr.startswith].
      by rewrite decide_True. }
    destruct d; cbn [PyStr.contains]; by rewrite Hself.
  - rewrite app_cons. cbn [PyStr.contains]. rewrite IH. apply orb_true_r.
Qed.

Lemma found_in_nonempty (domain out x : string) :
  x ∈ found_in domain out → x ≠ "".
Proof.
  intros (line & _ & Ht & _ & ->)%elem_of_found_in Hnil.
  by rewrite Hnil in Ht.
Qed.

Lemma tool_step_available (env : environment) (domain : string)
    (l : list (string * (string * list string))) (st : list string * gset string) :
  (foldl (tool_step env domain) st l).1
  = st.1 ++ (filter (λ tool : string * (string * list string),
                       tool_available env (PyStr.join " " tool.2.2 +:+ " --help"))
               l).*1.
Proof.
  revert st. induction l as [|tool l IH]; intros st.
  - cbn. by rewrite app_nil_r.
  - cbn [foldl]. rewrite IH, filter_cons.
    assert (Hstep : (tool_step env domain st tool).1
                    = st.1 ++ if tool_available env (PyStr.join " " tool.2.2 +:+ " --help")
                              then [tool.1] else []).
    { unfold tool_step. destruct (tool_available env _); [done|by rewrite app_nil_r]. }
    rewrite Hstep. destruct (tool_available env _) eqn:Hav.
    + rewrite decide_True by exact I. by rewrite fmap_cons, <-app_assoc.
    + rewrite decide_False by (intros []). by rewrite app_nil_r.
Qed.

Lemma probe_events_shape (env : environment) (c : string) (ev : net_event) :
  ev ∈ probe_events env c →
  ev = DnsQuery c ∨ ev = DnsQueryEx c ∨ ev = HttpGet ("http://" +:+ c).
Proof.
  unfold probe_events, dns_events. rewrite elem_of_app, elem_of_cons.
  intros [[->|Hin]|Hin]; [by left| |].
  - destruct (gethostbyname env c).
    + apply list_elem_of_singleton in Hin as ->. by right; left.
    + by apply elem_of_nil in Hin.
  - destruct (truthy_str _).
    + apply list_elem_of_singleton in Hin as ->. by right; right.
    + by apply elem_of_nil in Hin.
Qed.

(** The statistics of a run that returns: the metadata holds them, and
    they are the sizes computed at lines 152-157: the number of candidates,
    of entries of the active map, and of names of the two level groups of
    the candidates; the last three are at most the first. *)
Theorem statistics_bounds (env : environment) (args : arguments) (w w' : world)
    (L : main_locals) :
  main env args w = (Ret L, w') →
  estadisticas (metadata L) = stats L ∧
  total (stats L) = size (all_subdomains L) ∧
  activos (stats L) = size (active_subdomains L) ∧
  nivel2 (stats L) = size (extract_subdomains_level (all_subdomains L) 2) ∧
  nivel3 (stats L) = size (extract_subdomains_level (all_subdomains L) 3) ∧
  (activos (stats L) ≤ total (stats L))%nat ∧
  (nivel2 (stats L) ≤ total (stats L))%nat ∧
  (nivel3 (stats L) ≤ total (stats L))%nat.
Proof.
  intros [_ HL]%main_returned.
  split; [by rewrite (post_metadata _ _ _ _ _ HL)|].
  rewrite (post_stats _ _ _ _ _ HL). cbn [total activos nivel2 nivel3].
  rewrite (post_lvl2 _ _ _ _ _ HL), (post_lvl3 _ _ _ _ _ HL).
  split; [done|]. split; [done|]. split; [done|]. split; [done|]. split_and!.
  - rewrite <-size_dom. by eapply subseteq_size, active_dom_candidates.
  - apply extract_size_le.
  - apply extract_size_le.
Qed.

Lemma statistics_bounds_witness :
  ∃ L w',
    main (env_subfinder 200) args_testfire world0 = (Ret L, w') ∧
    total (stats L) = 2%nat ∧
    activos (stats L) = size (active_subdomains L) ∧
    (activos (stats L) ≤ total (stats L))%nat.
Proof.
  destruct (on_locals_returns (λ L, bool_decide (total (stats L) = 2%nat))
              (main (env_subfinder 200) args_testfire world0))
    as (L & w' & Hmain & Htotal); [vm_compute; reflexivity|].
  apply bool_decide_eq_true in Htotal.
  destruct (statistics_bounds _ _ _ _ _ Hmain) as (_ & _ & Hact & _ & _ & Hle & _).
  exists L, w'. split; [exact Hmain|]. split; [exact Htotal|].
  split; [exact Hact|exact Hle].
Defined.

(** When a run returns, every candidate of the final set is a non-empty
    string that contains the domain, whatever the domain is (even the empty
    string). *)
Theorem candidates_nonempty (env : environment) (args : arguments) (w w' : world)
    (L : main_locals) :
  main env args w = (Ret L, w') →
  ∀ c, c ∈ all_subdomains L →
       c ≠ "" ∧ PyStr.contains c (arg_domain args) = true.
Proof.
  intros [_ HL]%main_returned.
  intros c [Hagg Hend]%(elem_of_all_subdomains _ _ _ _ _ _ HL).
  split; [|by apply contains_of_ends_with].
  apply (elem_of_aggregated _ _ _ _ _ _ HL) in Hagg as (tool & _ & Hc).
  unfold tool_found in Hc. destruct (tool_available env _).
  - by eapply found_in_nonempty.
  - by apply not_elem_of_empty in Hc.
Qed.

Lemma candidates_nonempty_witness :
  ∃ L w',
    main (env_subfinder 200) args_testfire world0 = (Ret L, w') ∧
    "eviltestfire.net" ∈ all_subdomains L ∧
    "eviltestfire.net" ≠ "" ∧
    PyStr.contains "eviltestfire.net" (arg_domain args_testfire) = true.
Proof.
  destruct (on_locals_returns
              (λ L, bool_decide ("eviltestfire.net" ∈ all_subdomains L))
              (main (env_subfinder 200) args_testfire world0))
    as (L & w' & Hmain & Hin); [vm_compute; reflexivity|].
  apply bool_decide_eq_true in Hin.
  exists L, w'. split; [exact Hmain|]. split; [exact Hin|].
  exact (candidates_nonempty _ _ _ _ _ Hmain _ Hin).
Defined.

(** When a run returns, the tools recorded in the metadata are those of
    the table whose self-test process completed, in the order of the
    table. *)
Theorem available_tools_listed (env : environment) (args : arguments)
    (w w' : world) (L : main_locals) :
  main env args w = (Ret L, w') →
  herramientas (metadata L) = available_tools L ∧
  available_tools L
  = (filter (λ tool : string * (string * list string),
               tool_available env (PyStr.join " " tool.2.2 +:+ " --help"))
       (tools (arg_domain args))).*1.
Proof.
  intros [_ HL]%main_returned.
  split; [by rewrite (post_metadata _ _ _ _ _ HL)|].
  pose proof (post_tools _ _ _ _ _ HL) as Ht.
  replace (available_tools L)
    with (foldl (tool_step env (arg_domain args)) ([], ∅) (tools (arg_domain args))).1
    by (by rewrite <-Ht).
  by rewrite tool_step_available.
Qed.

Lemma available_tools_listed_witness :
  ∃ L w',
    main (env_subfinder 200) args_testfire world0 = (Ret L, w') ∧
    herramientas (metadata L) = ["subfinder"].
Proof.
  destruct (on_locals_returns (λ _, true)
              (main (env_subfinder 200) args_testfire world0))
    as (L & w' & Hmain & _); [vm_compute; reflexivity|].
  destruct (available_tools_listed _ _ _ _ _ Hmain) as [Hmeta Hlist].
  exists L, w'. split; [exact Hmain|].
  rewrite Hmeta, Hlist. vm_compute. reflexivity.
Defined.

(** A tool whose self-test completes and whose real command raises (a
    timeout, say) is recorded in the metadata of a run that returns all the
    same, and contributes no name: every aggregated name was found in the
    output of another tool of the table. *)
Theorem tool_listed_despite_failure (env : environment) (args : arguments)
    (w w' : world) (L : main_locals) (name cmd : string) (check : list string)
    (result : completed_process) (e : exception) :
  (name, (cmd, check)) ∈ tools (arg_domain args) →
  subprocess_run env (PyStr.join " " check +:+ " --help") 10 = Ret result →
  subprocess_run env cmd 300 = Raise e →
  main env args w = (Ret L, w') →
  name ∈ herramientas (metadata L) ∧
  ∀ c, c ∈ aggregated L →
       ∃ tool, tool ∈ tools (arg_domain args) ∧ tool ≠ (name, (cmd, check)) ∧
               c ∈ tool_found env (arg_domain args) tool.
Proof.
  intros Htool Hcheck Hrun [_ HL]%main_returned.
  assert (Hav : tool_available env (PyStr.join " " check +:+ " --help") = true)
    by (unfold tool_available; by rewrite Hcheck).
  assert (Hnone : tool_found env (arg_domain args) (name, (cmd, check)) = ∅).
  { unfold tool_found. cbn [fst snd]. rewrite Hav.
    unfold command_output. rewrite Hrun. reflexivity. }
  split.
  - rewrite (post_metadata _ _ _ _ _ HL). cbn [herramientas].
    pose proof (post_tools _ _ _ _ _ HL) as Ht.
    replace (available_tools L)
      with (foldl (tool_step env (arg_domain args)) ([], ∅) (tools (arg_domain args))).1
      by (by rewrite <-Ht).
    rewrite tool_step_available. cbn [fst app].
    apply (list_elem_of_fmap_2' fst _ (name, (cmd, check))); [|done].
    apply list_elem_of_filter. split; [|done]. cbn [fst snd]. by rewrite Hav.
  - intros c (tool & Hin & Hc)%(elem_of_aggregated _ _ _ _ _ _ HL).
    exists tool. split; [done|]. split; [|done].
    intros ->. rewrite Hnone in Hc. by apply not_elem_of_empty in Hc.
Qed.

Lemma tool_listed_despite_failure_witness :
  ("subfinder", ("subfinder -d testfire.net -all -silent", ["subfinder"]))
    ∈ tools (arg_domain args_testfire) ∧
  subprocess_run env_timeouts (PyStr.join " " ["subfinder"] +:+ " --help") 10
    = Ret (CompletedProcess 127 "" "command not found") ∧
  subprocess_run env_timeouts "subfinder -d testfire.net -all -silent" 300
    = Raise (Exception "TimeoutExpired" "timed out after 300 seconds") ∧
  ∃ L w',
    main env_timeouts args_testfire world0 = (Ret L, w') ∧
    "subfinder" ∈ herramientas (metadata L).
Proof.
  assert (Htool : ("subfinder", ("subfinder -d testfire.net -all -silent", ["subfinder"]))
                  ∈ tools (arg_domain args_testfire))
    by (apply list_elem_of_further, list_elem_of_here).
  split; [exact Htool|]. split; [reflexivity|]. split; [reflexivity|].
  destruct (on_locals_returns (λ _, true) (main env_timeouts args_testfire world0))
    as (L & w' & Hmain & _); [vm_compute; reflexivity|].
  exists L, w'. split; [exact Hmain|].
  exact (proj1 (tool_listed_despite_failure env_timeouts args_testfire world0 w' L
                  "subfinder" "subfinder -d testfire.net -all -silent" ["subfinder"]
                  _ _ Htool eq_refl eq_refl Hmain)).
Defined.

(** When a run returns, every call that the script made to the resolver or
    to [requests.get] is about a candidate of the final set, whose name
    ends with the domain: [gethostbyname] or [gethostbyname_ex] of the
    candidate, or [requests.get] of [http://<candidate>]. What the
    processes of the tools request, and what the library requests when it
    follows a redirect, are not calls of the script. *)
Theorem calls_target_candidates (env : environment) (args : arguments)
    (w w' : world) (L : main_locals) :
  main env args w = (Ret L, w') →
  ∃ evs,
    w_net w' = w_net w ++ evs ∧
    ∀ ev, ev ∈ evs →
          ∃ c, c ∈ all_subdomains L ∧ ends_with c (arg_domain args) ∧
               (ev = DnsQuery c ∨ ev = DnsQueryEx c ∨
                ev = HttpGet ("http://" +:+ c)).
Proof.
  intros [_ HL]%main_returned.
  exists (probed_events env (all_subdomains L)).
  split; [apply (post_net _ _ _ _ _ HL)|].
  intros ev (c & Hev & Hc)%list_elem_of_bind.
  apply elem_of_as_completed in Hc. exists c. split; [done|].
  split; [by apply (elem_of_all_subdomains _ _ _ _ _ _ HL) in Hc as [_ ?]|].
  by apply (probe_events_shape env).
Qed.

Lemma calls_target_candidates_witness :
  ∃ L w' evs,
    main (env_subfinder 200) args_testfire world0 = (Ret L, w') ∧
    w_net w' = w_net world0 ++ evs ∧
    evs ≠ [] ∧
    ∀ ev, ev ∈ evs →
          ∃ c, c ∈ all_subdomains L ∧ ends_with c (arg_domain args_testfire) ∧
               (ev = DnsQuery c ∨ ev = DnsQueryEx c ∨
                ev = HttpGet ("http://" +:+ c)).
Proof.
  destruct (on_locals_returns (λ _, true)
              (main (env_subfinder 200) args_testfire world0))
    as (L & w' & Hmain & _); [vm_compute; reflexivity|].
  destruct (calls_target_candidates _ _ _ _ _ Hmain) as (evs & Hnet & Hall).
  exists L, w', evs. split; [exact Hmain|]. split; [exact Hnet|].
  split; [|exact Hall].
  assert (Hc : match w_net (main (env_subfinder 200) args_testfire world0).2 with
               | [] => false
               | _ :: _ => true
               end = true) by (vm_compute; reflexivity).
  rewrite Hmain in Hc. cbn [snd] in Hc. rewrite Hnet in Hc.
  intros ->. discriminate Hc.
Defined.

Lemma probed_in_submission_order (env : environment) (S : gset string) :
  probed (in_submission_order env) S = probed env S.
Proof.
  assert (Hrec : ∀ c, record_of (in_submission_order env) c = record_of env c) by done.
  assert (Hprom : ∀ c, promoted (in_submission_order env) c = promoted env c) by done.
  assert (Hd : (probed (in_submission_order env) S).1 = (probed env S).1).
  { apply map_eq. intros c. by rewrite !probed_data_lookup, Hrec. }
  assert (Ha : (probed (in_submission_order env) S).2 = (probed env S).2).
  { apply map_eq. intros c. by rewrite !probed_active_lookup, Hrec, Hprom. }
  destruct (probed (in_submission_order env) S), (probed env S).
  cbn [fst snd] in Hd, Ha. by subst.
Qed.

(** The order in which the futures complete changes nothing in what a run
    computes and reports: when a run returns, so does the run with the same
    collaborators and the futures completing in submission order, with the
    same variables (candidates, both maps, statistics, metadata, paths),
    the same directories, the same calls to the network in another order,
    and the same content of every file: the text reports letter for letter,
    the JSON reports as documents, since the order in which [json.dump]
    writes the keys of the record map, which is the order of completion, is
    not part of a [JsonFile]. *)
Theorem reports_independent_of_completion_order (env : environment)
    (args : arguments) (w w1 : world) (L : main_locals) :
  main env args w = (Ret L, w1) →
  ∃ w2,
    main (in_submission_order env) args w = (Ret L, w2) ∧
    w_files w1 = w_files w2 ∧
    w_dirs w1 = w_dirs w2 ∧
    w_net w1 ≡ₚ w_net w2.
Proof.
  intros [Hfs H1]%main_returned. rename L into L1.
  assert (Hfs2 : fs_ok (in_submission_order env) args w) by exact Hfs.
  destruct (main_returns (in_submission_order env) args w Hfs2)
    as (L2 & w2 & Hmain2 & H2).
  assert (HL : L2 = L1).
  { pose proof (post_domain _ _ _ _ _ H1) as Hd1.
    pose proof (post_domain _ _ _ _ _ H2) as Hd2.
    pose proof (post_tools _ _ _ _ _ H1) as Ht1.
    pose proof (post_tools _ _ _ _ _ H2) as Ht2.
    change (tool_step (in_submission_order env)) with (tool_step env) in Ht2.
    pose proof (post_clean _ _ _ _ _ H1) as Hc1.
    pose proof (post_clean _ _ _ _ _ H2) as Hc2.
    pose proof (post_probe _ _ _ _ _ H1) as Hp1.
    pose proof (post_probe _ _ _ _ _ H2) as Hp2.
    rewrite probed_in_submission_order in Hp2.
    pose proof (post_lvl2 _ _ _ _ _ H1) as Hl1.
    pose proof (post_lvl2 _ _ _ _ _ H2) as Hl2.
    pose proof (post_lvl3 _ _ _ _ _ H1) as Hm1.
    pose proof (post_lvl3 _ _ _ _ _ H2) as Hm2.
    pose proof (post_stats _ _ _ _ _ H1) as Hs1.
    pose proof (post_stats _ _ _ _ _ H2) as Hs2.
    pose proof (post_metadata _ _ _ _ _ H1) as Hmd1.
    pose proof (post_metadata _ _ _ _ _ H2) as Hmd2.
    change (strftime_now (in_submission_order env)) with (strftime_now env) in Hmd2.
    pose proof (post_base _ _ _ _ _ H1) as Hb1.
    pose proof (post_base _ _ _ _ _ H2) as Hb2.
    change (strftime_now (in_submission_order env)) with (strftime_now env) in Hb2.
    pose proof (post_base_act _ _ _ _ _ H1) as Ha1.
    pose proof (post_base_act _ _ _ _ _ H2) as Ha2.
    change (strftime_now (in_submission_order env)) with (strftime_now env) in Ha2.
    clear H1 H2 Hmain2 Hfs Hfs2. destruct L1, L2.
    cbn [domain available_tools aggregated all_subdomains subdomain_data
         active_subdomains lvl2 lvl3 stats metadata base base_act] in *.
    f_equal; congruence. }
  subst L2. exists w2. split; [done|].
  split; [by rewrite (post_files _ _ _ _ _ H1), (post_files _ _ _ _ _ H2)|].
  split; [by rewrite (post_dirs _ _ _ _ _ H1), (post_dirs _ _ _ _ _ H2)|].
  rewrite (post_net _ _ _ _ _ H1), (post_net _ _ _ _ _ H2).
  apply Permutation_app_head. unfold probed_events. cbn [as_completed in_submission_order].
  change (probe_events (in_submission_order env)) with (probe_events env).
  by rewrite (as_completed_once env (elements (all_subdomains L1))).
Qed.

Lemma reports_independent_of_completion_order_witness :
  ∃ L w1 w2,
    main (env_subfinder 200) args_testfire world0 = (Ret L, w1) ∧
    main (in_submission_order (env_subfinder 200)) args_testfire world0 = (Ret L, w2) ∧
    w_files w1 = w_files w2 ∧
    w_dirs w1 = w_dirs w2 ∧
    w_net w1 ≡ₚ w_net w2.
Proof.
  destruct (on_locals_returns (λ _, true)
              (main (env_subfinder 200) args_testfire world0))
    as (L & w1 & Hmain & _); [vm_compute; reflexivity|].
  destruct (reports_independent_of_completion_order _ _ _ _ _ Hmain)
    as (w2 & Hmain2 & Hrest).
  exists L, w1, w2. split; [exact Hmain|]. split; [exact Hmain2|exact Hrest].
Defined.



(** When a run returns, each text report is the concatenation of its
    names, each followed by a line feed, in ascending order and without
    repetition; the names of the full report are the candidates, those of
    the active report are the keys of the active map, all of which are in
    the full report. *)
Theorem txt_reports_sorted (env : environment) (args : arguments) (w w' : world)
    (L : main_locals) :
  main env args w = (Ret L, w') →
  ∃ full active,
    w_files w' !! (base L +:+ ".txt")
      = Some (TextFile (PyStr.join "" ((λ name, name +:+ LF) <$> full))) ∧
    w_files w' !! (base_act L +:+ ".txt")
      = Some (TextFile (PyStr.join "" ((λ name, name +:+ LF) <$> active))) ∧
    Sorted String.le full ∧ NoDup full ∧
    Sorted String.le active ∧ NoDup active ∧
    (∀ c, c ∈ full ↔ c ∈ all_subdomains L) ∧
    (∀ c, c ∈ active ↔ is_Some (active_subdomains L !! c)) ∧
    active ⊆ full.
Proof.
  intros [_ HL]%main_returned.
  destruct (main_files _ _ _ _ _ HL) as (_ & _ & Hfull & Hact).
  exists (sorted (elements (all_subdomains L))),
    (sorted (elements (dom (active_subdomains L)))).
  rewrite <-!write_lines_join.
  split; [done|]. split; [done|].
  assert (Hfull_in : ∀ c, c ∈ sorted (elements (all_subdomains L))
                          ↔ c ∈ all_subdomains L).
  { intros c. unfold sorted. by rewrite merge_sort_Permutation, elem_of_elements. }
  assert (Hact_in : ∀ c, c ∈ sorted (elements (dom (active_subdomains L)))
                         ↔ is_Some (active_subdomains L !! c)).
  { intros c. unfold sorted.
    by rewrite merge_sort_Permutation, elem_of_elements, elem_of_dom. }
  split; [apply Sorted_merge_sort, _|].
  split; [unfold sorted; rewrite merge_sort_Permutation; apply NoDup_elements|].
  split; [apply Sorted_merge_sort, _|].
  split; [unfold sorted; rewrite merge_sort_Permutation; apply NoDup_elements|].
  split; [done|]. split; [done|].
  intros c Hc. apply Hfull_in. apply Hact_in in Hc.
  apply elem_of_dom in Hc. by eapply active_dom_candidates.
Qed.

Lemma txt_reports_sorted_witness :
  ∃ L w',
    main (env_subfinder 200) args_testfire world0 = (Ret L, w') ∧
    w_files w' !! (base L +:+ ".txt")
      = Some (TextFile ("eviltestfire.net" +:+ LF +:+ "www.testfire.net" +:+ LF)).
Proof.
  destruct (on_locals_returns (λ _, true)
              (main (env_subfinder 200) args_testfire world0))
    as (L & w' & Hmain & _); [vm_compute; reflexivity|].
  destruct (txt_reports_sorted _ _ _ _ _ Hmain) as (full & _ & Hfull & _).
  exists L, w'. split; [exact Hmain|].
  assert (Hc : match main (env_subfinder 200) args_testfire world0 with
               | (Ret L0, w0) =>
                   bool_decide
                     (text_at w0 (base L0 +:+ ".txt")
                      = Some ("eviltestfire.net" +:+ LF +:+ "www.testfire.net" +:+ LF))
               | (Raise _, _) => false
               end = true)
    by (vm_compute; reflexivity).
  rewrite Hmain in Hc. apply bool_decide_eq_true in Hc.
  exact (text_at_Some _ _ _ Hc).
Defined.

(** ** The verbose flag *)

Lemma level_blind_ret {A} (a : A) : level_blind (mret a).
Proof. by intros w1 w2 Hw. Qed.

Lemma level_blind_bind {A B} (m : Py A) (f : A → Py B) :
  level_blind m → (∀ a, level_blind (f a)) → level_blind (m ≫= f).
Proof.
  intros Hm Hf w1 w2 Hw. destruct (Hm w1 w2 Hw) as [Ha Hw'].
  unfold mbind, Py_bind.
  destruct (m w1) as [[a1|e1] w1'], (m w2) as [[a2|e2] w2'];
    cbn [fst snd] in Ha, Hw'; simplify_eq; [|done].
  by apply Hf.
Qed.

Lemma level_blind_try {A} (m : Py A) (h : exception → Py A) :
  level_blind m → (∀ e, level_blind (h e)) → level_blind (try_except m h).
Proof.
  intros Hm Hh w1 w2 Hw. destruct (Hm w1 w2 Hw) as [Ha Hw'].
  unfold try_except.
  destruct (m w1) as [[a1|e1] w1'], (m w2) as [[a2|e2] w2'];
    cbn [fst snd] in Ha, Hw'; simplify_eq; [done|].
  by apply Hh.
Qed.

Lemma level_blind_for_each {A S} (l : list A) (body : A → S → Py S) (s : S) :
  (∀ x s', level_blind (body x s')) → level_blind (for_each l body s).
Proof.
  intros Hbody. revert s. induction l as [|x l IH]; intros s.
  - apply level_blind_ret.
  - cbn [for_each]. apply level_blind_bind; [apply Hbody|apply IH].
Qed.

Lemma level_blind_perform {A} (o : outcome A) : level_blind (perform o).
Proof. by intros w1 w2 Hw. Qed.

Lemma level_blind_emit (lvl : log_level) (msg : string) :
  lvl ≠ DEBUG → level_blind (emit lvl msg).
Proof.
  intros Hlvl w1 w2 (Hlog & Hnet & Hdirs & Hfiles & Hl1 & Hl2).
  assert (20 ≤ level_no lvl) by (destruct lvl; cbn; [done|lia..]).
  unfold emit. cbn [fst snd]. split; [done|].
  unfold same_but_level. cbn [w_log w_net w_dirs w_files w_level].
  rewrite !decide_True by lia. by rewrite Hlog.
Qed.

Lemma level_blind_record_net (ev : net_event) : level_blind (record_net ev).
Proof.
  intros w1 w2 (Hlog & Hnet & Hdirs & Hfiles & Hl1 & Hl2).
  unfold record_net, same_but_level. cbn. by rewrite Hnet.
Qed.

Lemma level_blind_makedirs (env : environment) (path : string) :
  level_blind (os_makedirs env path).
Proof.
  intros w1 w2 (Hlog & Hnet & Hdirs & Hfiles & Hl1 & Hl2).
  unfold os_makedirs, same_but_level. rewrite Hfiles.
  case_decide; [done|].
  destruct (makedirs_refused env path); cbn; by rewrite ?Hdirs.
Qed.

Lemma level_blind_write_file (env : environment) (path : string)
    (content : file_content) :
  level_blind (write_file env path content).
Proof.
  intros w1 w2 (Hlog & Hnet & Hdirs & Hfiles & Hl1 & Hl2).
  unfold write_file, same_but_level. rewrite Hdirs.
  case_decide; [done|].
  destruct (open_refused env path); [done|].
  destruct (write_refused env path); cbn; by rewrite Hfiles.
Qed.

Ltac level_blind_step :=
  first
    [ apply level_blind_ret
    | apply level_blind_perform
    | apply level_blind_record_net
    | apply level_blind_makedirs
    | apply level_blind_write_file
    | apply level_blind_emit; discriminate
    | apply level_blind_try; [|intros ?]
    | apply level_blind_bind; [|intros ?] ].

Lemma level_blind_check_tool (env : environment) (cmd name : string) :
  level_blind (check_tool env cmd name).
Proof. unfold check_tool, logging_warning. repeat level_blind_step. Qed.

Lemma level_blind_run_command (env : environment) (cmd name : string) (t : Z) :
  level_blind (run_command env cmd name t).
Proof.
  unfold run_command, logging_warning. repeat level_blind_step.
  case_decide; repeat level_blind_step.
Qed.

Lemma level_blind_run_tools (env : environment) (domain : string) :
  level_blind (run_tools env domain).
Proof.
  apply level_blind_for_each. intros [name [cmd check]] [avail agg].
  unfold run_tool, logging_info, logging_warning.
  apply level_blind_bind; [apply level_blind_check_tool|]. intros [].
  - apply level_blind_bind; [apply level_blind_emit; discriminate|]. intros _.
    apply level_blind_bind; [apply level_blind_run_command|]. intros out.
    repeat level_blind_step.
  - repeat level_blind_step.
Qed.

Lemma level_blind_probe_all (env : environment) (S : gset string) :
  level_blind (probe_all env S).
Proof.
  apply level_blind_for_each. intros sub [data act].
  unfold probe, dns_resolve, http_check, socket_gethostbyname,
    socket_gethostbyname_ex, requests_get_status.
  apply level_blind_bind; [repeat level_blind_step|]. intros [ipo cn].
  destruct (truthy_str ipo); [|apply level_blind_ret].
  apply level_blind_bind; [repeat level_blind_step|]. intros status.
  destruct (responded status); apply level_blind_ret.
Qed.

Lemma level_blind_main (env : environment) (d o : string) :
  level_blind (main env (Namespace d o false)).
Proof.
  unfold main, logging_info, get_timestamp. cbn [arg_verbose arg_domain arg_output].
  apply level_blind_bind; [apply level_blind_ret|]. intros _. cbv zeta.
  apply level_blind_bind; [apply level_blind_makedirs|]. intros _.
  apply level_blind_bind; [apply level_blind_ret|]. intros ts.
  apply level_blind_bind; [apply level_blind_run_tools|]. intros [avail agg].
  apply level_blind_bind; [apply level_blind_emit; discriminate|]. intros _.
  apply level_blind_bind; [apply level_blind_emit; discriminate|]. intros _.
  apply level_blind_bind; [apply level_blind_probe_all|]. intros [data act].
  do 4 (apply level_blind_bind; [apply level_blind_write_file|]; intros _).
  do 2 (apply level_blind_bind; [apply level_blind_emit; discriminate|]; intros _).
  apply level_blind_ret.
Qed.

(** From the state the logging configuration of the script leaves (root
    threshold INFO), the flag [-v] changes nothing: with and without it
    [main] ends with the same outcome (the same variables when it returns,
    the same exception when it raises), the same calls to the network, the
    same directories and files, and the same records logged by the script,
    which never logs below INFO. Records that the libraries it calls log on
    loggers of their own are not part of the world modelled here. *)
Theorem verbose_changes_nothing (env : environment) (d o : string) (w : world) :
  w_level w = INFO →
  ∃ r w1 w2,
    main env (Namespace d o false) w = (r, w1) ∧
    main env (Namespace d o true) w = (r, w2) ∧
    w_log w1 = w_log w2 ∧ w_net w1 = w_net w2 ∧
    w_dirs w1 = w_dirs w2 ∧ w_files w1 = w_files w2.
Proof.
  intros Hlevel.
  set (wv := World DEBUG (w_log w) (w_net w) (w_dirs w) (w_files w)).
  assert (Hverbose : main env (Namespace d o true) w = main env (Namespace d o false) wv)
    by reflexivity.
  assert (Hw : same_but_level w wv).
  { unfold same_but_level, wv. cbn. rewrite Hlevel. cbn. repeat split; lia. }
  destruct (level_blind_main env d o w wv Hw) as [Hres (Hlog & Hnet & Hdirs & Hfiles & _)].
  rewrite Hverbose.
  destruct (main env (Namespace d o false) w) as [r w1].
  destruct (main env (Namespace d o false) wv) as [r2 w2].
  cbn [fst snd] in *. subst r2. by exists r, w1, w2.
Qed.

Lemma verbose_changes_nothing_witness :
  w_level world0 = INFO ∧
  ∃ r w1 w2,
    main (env_subfinder 200) (Namespace "testfire.net" "output" false) world0
      = (r, w1) ∧
    main (env_subfinder 200) (Namespace "testfire.net" "output" true) world0
      = (r, w2) ∧
    w_log w1 = w_log w2 ∧ w_net w1 = w_net w2 ∧
    w_dirs w1 = w_dirs w2 ∧ w_files w1 = w_files w2.
Proof.
  split; [reflexivity|].
  apply (verbose_changes_nothing (env_subfinder 200) "testfire.net" "output" world0).
  reflexivity.
Defined.

(** ** Reading the text reports back *)

(** No candidate contains a line boundary, so when a run returns, each
    text report, read back with [splitlines], gives exactly the sorted
    names that were written: the candidates for the full report, the keys
    of the active map for the active one. *)
Theorem txt_reports_read_back (env : environment) (args : arguments) (w w' : world)
    (L : main_locals) :
  main env args w = (Ret L, w') →
  ∃ full active,
    w_files w' !! (base L +:+ ".txt") = Some (TextFile full) ∧
    w_files w' !! (base_act L +:+ ".txt") = Some (TextFile active) ∧
    PyStr.splitlines full = sorted (elements (all_subdomains L)) ∧
    PyStr.splitlines active = sorted (elements (dom (active_subdomains L))).
Proof. intros [_ HL]%main_returned. by eapply main_txt_lines. Qed.

Lemma txt_reports_read_back_witness :
  ∃ L w' full,
    main (env_subfinder 200) args_testfire world0 = (Ret L, w') ∧
    w_files w' !! (base L +:+ ".txt") = Some (TextFile full) ∧
    PyStr.splitlines full = ["eviltestfire.net"; "www.testfire.net"].
Proof.
  destruct (on_locals_returns
              (λ L, bool_decide (sorted (elements (all_subdomains L))
                                 = ["eviltestfire.net"; "www.testfire.net"]))
              (main (env_subfinder 200) args_testfire world0))
    as (L & w' & Hmain & Hnames); [vm_compute; reflexivity|].
  apply bool_decide_eq_true in Hnames.
  destruct (txt_reports_read_back _ _ _ _ _ Hmain)
    as (full & active & Hfull & _ & Hlines & _).
  exists L, w', full. split; [exact Hmain|]. split; [exact Hfull|].
  rewrite Hlines. exact Hnames.
Defined.

(** ** When a run fails *)



(** Only the file system makes a run fail: [main] returns exactly when the
    output directory can be made and each of the four reports can be opened
    and written, and raises otherwise. No failure of a tool, of the
    resolver or of an HTTP call makes it raise. *)
Theorem only_file_system_errors_are_fatal (env : environment) (args : arguments)
    (w : world) :
  ((∃ L w', main env args w = (Ret L, w')) ↔ fs_ok env args w) ∧
  ((∃ e w', main env args w = (Raise e, w')) ↔ ¬ fs_ok env args w).
Proof.
  destruct (main_runs env args w) as ([L|e] & w' & Hmain & Hends);
    cbn [main_ends] in Hends.
  - destruct Hends as [Hfs _]. split; split.
    + done.
    + intros _. by exists L, w'.
    + intros (e & w1 & Hraise). rewrite Hmain in Hraise. discriminate Hraise.
    + done.
  - split; split.
    + intros (L & w1 & Hret). rewrite Hmain in Hret. discriminate Hret.
    + done.
    + done.
    + intros _. by exists e, w'.
Qed.


